(** * watch_alebilet: price watcher with a one-shot e-mail alert

    A shallow embedding of [watch_alebilet.py].  One run of the script
    loads a small JSON state file, fetches a ticket page (warm-up request,
    retries with linear backoff), extracts the price of the "plyta" row,
    compares it with a threshold, possibly sends one e-mail, appends one row
    to a CSV log and writes the state file back.

    Python strings are lists of Unicode code points, Python floats are
    binary64 values ([spec_float] with precision 53 and maximal exponent
    1024), dictionaries are finite maps, and the effects of a run (files,
    network, mail, console, sleeping) are threaded through a state and
    exception monad.

    The surroundings answer through oracles: the outcome of each fetch
    attempt, the outcome of the SMTP session, the clock, and the tree that
    the HTML parser builds.  The log file and the state file can always be
    written; reading the state file can fail in each way the script
    distinguishes.  Cookies of the HTTP session, the formatting of floats
    and of the timestamp, and exceptions outside [Exception] are left out. *)

From Stdlib Require Import ZArith NArith List String Ascii QArith Qabs Lia.
From Stdlib Require Import SpecFloat DecimalString.
From stdpp Require Import base gmap list.
Import ListNotations.

#[local] Set Warnings "-register-all".
#[local] Open Scope Z_scope.

(** ** Python strings *)

(** A [str] is a sequence of code points. *)
Abbreviation str := (list N).

(** Decoding of the UTF-8 bytes of a Rocq string literal, so that Python
    literals can be written as they appear in the script. *)
Fixpoint utf8_decode (bs : list N) : str :=
  match bs with
  | [] => []
  | b0 :: t0 =>
      if (b0 <? 128)%N then b0 :: utf8_decode t0
      else if (b0 <? 224)%N then
        match t0 with
        | b1 :: t1 => ((b0 - 192) * 64 + (b1 - 128))%N :: utf8_decode t1
        | [] => [b0]
        end
      else if (b0 <? 240)%N then
        match t0 with
        | b1 :: b2 :: t2 =>
            ((b0 - 224) * 4096 + (b1 - 128) * 64 + (b2 - 128))%N :: utf8_decode t2
        | _ => b0 :: t0
        end
      else
        match t0 with
        | b1 :: b2 :: b3 :: t3 =>
            ((b0 - 240) * 262144 + (b1 - 128) * 4096 + (b2 - 128) * 64 + (b3 - 128))%N
              :: utf8_decode t3
        | _ => b0 :: t0
        end
  end.

Definition py (s : string) : str :=
  utf8_decode (map N_of_ascii (list_ascii_of_string s)).

Definition str_eqb (a b : str) : bool := bool_decide (a = b).

(** [s.startswith(p)] *)
Fixpoint startswith (p s : str) : bool :=
  match p, s with
  | [], _ => true
  | a :: p', b :: s' => (a =? b)%N && startswith p' s'
  | _ :: _, [] => false
  end.

(** [p in s] on strings: [p] occurs as a substring of [s]. *)
Fixpoint contains (p s : str) : bool :=
  startswith p s ||
  match s with
  | [] => false
  | _ :: t => contains p t
  end.

(** [s.replace(old, new)] and [s.replace(old, new, count)] for a non-empty
    [old] (every call of the script passes a non-empty literal): the
    occurrences are found from left to right and do not overlap.  [skip]
    counts the code points of a matched occurrence that are still to be
    dropped; [count = None] stands for no limit. *)
Fixpoint replace_from (old new : str) (count : option nat) (skip : nat) (s : str) : str :=
  match s with
  | [] => []
  | c :: t =>
      match skip with
      | S k => replace_from old new count k t
      | O =>
          match count with
          | Some O => s
          | _ =>
              if startswith old s
              then new ++ replace_from old new (Nat.pred <$> count) (length old - 1) t
              else c :: replace_from old new count 0 t
          end
      end
  end.

Definition replace (old new s : str) : str := replace_from old new None 0 s.
Definition replace_n (old new : str) (count : nat) (s : str) : str :=
  replace_from old new (Some count) 0 s.

(** [str.isspace] on one code point: the characters removed by [strip()]. *)
Definition isspace (c : N) : bool :=
  ((9 <=? c) && (c <=? 13) || (28 <=? c) && (c <=? 32) || (c =? 133) || (c =? 160)
   || (c =? 5760) || (8192 <=? c) && (c <=? 8202) || (c =? 8232) || (c =? 8233)
   || (c =? 8239) || (c =? 8287) || (c =? 12288))%N.

Fixpoint lstrip (s : str) : str :=
  match s with
  | c :: t => if isspace c then lstrip t else s
  | [] => []
  end.

Definition rstrip (s : str) : str := rev (lstrip (rev s)).
Definition strip (s : str) : str := rstrip (lstrip s).

(** [str.lower] on one code point, for the blocks Basic Latin, Latin-1
    Supplement and Latin Extended-A (which hold the Polish letters); code
    points above U+017F are left as they are.  U+0130 lowers to two code
    points. *)
Definition lower_char (c : N) : str :=
  (if (65 <=? c) && (c <=? 90) then [c + 32]
   else if (192 <=? c) && (c <=? 222) && negb (c =? 215) then [c + 32]
   else if c =? 304 then [105; 775]
   else if c =? 376 then [255]
   else if ((256 <=? c) && (c <=? 311) || (330 <=? c) && (c <=? 375)) && N.even c
        then [c + 1]
   else if ((313 <=? c) && (c <=? 328) || (377 <=? c) && (c <=? 382)) && N.odd c
        then [c + 1]
   else [c])%N.

Definition lower (s : str) : str := flat_map lower_char s.

(** [sep.join(parts)] *)
Fixpoint join (sep : str) (parts : list str) : str :=
  match parts with
  | [] => []
  | [p] => p
  | p :: rest => p ++ sep ++ join sep rest
  end.

(** [str(n)] for an integer. *)
Definition str_of_Z (n : Z) : str :=
  py (NilZero.string_of_int (Z.to_int n)).

(** [repr(s)] for a string of printable characters: the quote is the double
    quote when the string holds a single quote and no double quote, the
    single quote otherwise; the backslash and the chosen quote are escaped. *)
Definition repr (s : str) : str :=
  let q := if existsb (N.eqb 39) s && negb (existsb (N.eqb 34) s) then 34%N else 39%N in
  let esc c :=
    if (c =? 92)%N || (c =? q)%N then [92%N; c]
    else if (c =? 10)%N then py "\n"
    else if (c =? 13)%N then py "\r"
    else if (c =? 9)%N then py "\t"
    else [c] in
  q :: flat_map esc s ++ [q].

(** ** Exceptions and results *)

Inductive exn_class :=
| RuntimeError
| ValueError
| AttributeError
| LibraryError (name : str).

(** An exception object: its class and [str(e)].  Every class modelled here
    derives from [Exception]. *)
Record exn := Exn { exn_cls : exn_class; exn_msg : str }.

Inductive result (A : Type) :=
| Ok (a : A)
| Raise (e : exn).
Arguments Ok {A} a.
Arguments Raise {A} e.

(** ** Floats *)

Abbreviation float := spec_float.

Definition flt (x y : float) : bool := SFltb x y.
Definition feq (x y : float) : bool := SFeqb x y.

(** The binary64 value nearest to [m * 10 ^ e] (ties to even). *)
Definition float_of_decimal (neg : bool) (m : Z) (e : Z) : float :=
  match m with
  | Zpos p =>
      if 0 <=? e
      then binary_normalize 53 1024 (if neg then - (m * 10 ^ e) else m * 10 ^ e) 0 false
      else SFdiv 53 1024 (S754_finite neg p 0)
                         (S754_finite false (Z.to_pos (10 ^ (- e))) 0)
  | _ => S754_zero neg
  end.

Definition digit_of (c : N) : option Z :=
  if ((48 <=? c) && (c <=? 57))%N then Some (Z.of_N c - 48) else None.

(** The rest of a [digitpart] after its first digit: digits, each possibly
    preceded by one underscore.  Returns the accumulated value, the number
    of digits read and the unread input. *)
Fixpoint digits_tail (acc : Z) (n : Z) (s : str) : Z * Z * str :=
  match s with
  | [] => (acc, n, [])
  | c :: t =>
      match digit_of c with
      | Some d => digits_tail (10 * acc + d) (n + 1) t
      | None =>
          if (c =? 95)%N then
            match t with
            | c2 :: t2 =>
                match digit_of c2 with
                | Some d => digits_tail (10 * acc + d) (n + 1) t2
                | None => (acc, n, s)
                end
            | [] => (acc, n, s)
            end
          else (acc, n, s)
      end
  end.

Definition digitpart (acc : Z) (s : str) : option (Z * Z * str) :=
  match s with
  | c :: t =>
      match digit_of c with
      | Some d => Some (digits_tail (10 * acc + d) 1 t)
      | None => None
      end
  | [] => None
  end.

Definition sign_of (s : str) : bool * str :=
  match s with
  | 43%N :: t => (false, t)
  | 45%N :: t => (true, t)
  | _ => (false, s)
  end.

(** [number ::= [digitpart] "." digitpart | digitpart ["."]]: the mantissa
    as an integer, the number of fraction digits, the unread input. *)
Definition number (s : str) : option (Z * Z * str) :=
  match digitpart 0 s with
  | Some (ip, _, 46%N :: r) =>
      match digitpart ip r with
      | Some (m, k, r') => Some (m, k, r')
      | None => Some (ip, 0, r)
      end
  | Some (ip, _, r) => Some (ip, 0, r)
  | None =>
      match s with
      | 46%N :: r => digitpart 0 r
      | _ => None
      end
  end.

(** [exponent ::= ("e" | "E") [sign] digitpart], absent when the input ends. *)
Definition exponent (s : str) : option Z :=
  match s with
  | [] => Some 0
  | c :: t =>
      if (c =? 101)%N || (c =? 69)%N then
        let '(neg, t') := sign_of t in
        match digitpart 0 t' with
        | Some (x, _, []) => Some (if neg then - x else x)
        | _ => None
        end
      else None
  end.

(** [float(s)] on a string, for ASCII digits: surrounding whitespace is
    dropped, then a sign, then [inf], [infinity], [nan] in any letter case or
    a decimal number with an optional exponent.  [None] is a [ValueError]. *)
Definition float_literal (s : str) : option float :=
  let '(neg, body) := sign_of (strip s) in
  let word := lower body in
  if str_eqb word (py "inf") || str_eqb word (py "infinity") then Some (S754_infinity neg)
  else if str_eqb word (py "nan") then Some S754_nan
  else
    match number body with
    | Some (m, k, r) =>
        match exponent r with
        | Some x => Some (float_of_decimal neg m (x - k))
        | None => None
        end
    | None => None
    end.

Definition float_of_str (s : str) : result float :=
  match float_literal s with
  | Some f => Ok f
  | None => Raise (Exn ValueError (py "could not convert string to float: " ++ repr s))
  end.

(** ** The price text parser *)

Definition nbsp : str := [160%N].

(** [parse_price_pln(s)]: the chain of [replace] calls of the script, then
    [float]. *)
Definition parse_price_pln (s : str) : result float :=
  let cleaned :=
    replace_n (py ".") [] 1 (replace (py " ") [] (replace nbsp (py " ") s)) in
  let cleaned := replace (py ".") [] (replace (py " ") [] cleaned) in
  let cleaned := replace (py ",") (py ".") cleaned in
  float_of_str cleaned.

(** ** The document tree

    The tree that [BeautifulSoup(html, "html.parser")] builds: text nodes,
    comments (which [get_text] skips) and tags.  A tag keeps its
    single-valued attributes in a dictionary and, apart from them, the list
    of its classes ([class] is a multi-valued attribute, stored as a list of
    strings; [None] when the tag has no [class] attribute). *)
Inductive node :=
| NavigableString (s : str)
| Comment (s : str)
| Tag (name : str) (attrs : gmap str str) (class_ : option (list str))
      (contents : list node).

(** [n.descendants]: every node below [n], in document order. *)
Fixpoint descendants (n : node) : list node :=
  match n with
  | Tag _ _ _ contents => flat_map (fun c => c :: descendants c) contents
  | _ => []
  end.

Definition is_tag (name : str) (n : node) : bool :=
  match n with
  | Tag nm _ _ _ => str_eqb nm name
  | _ => false
  end.

(** [n.find_all(name)] *)
Definition find_all (name : str) (n : node) : list node :=
  List.filter (is_tag name) (descendants n).

(** The filter [class_=c]: one of the tag's classes is [c], or its whole
    class string is [c]. *)
Definition has_class (c : str) (n : node) : bool :=
  match n with
  | Tag _ _ (Some classes) _ =>
      existsb (str_eqb c) classes || str_eqb c (join (py " ") classes)
  | _ => false
  end.

(** [n.find(name)] and [n.find(name, class_=c)]: the first match of
    [find_all], if any. *)
Definition find (name : str) (n : node) : option node :=
  head (find_all name n).

Definition find_class (name c : str) (n : node) : option node :=
  head (List.filter (has_class c) (find_all name n)).

(** [n.get_text(sep, strip=True)]: the text nodes below [n], each stripped,
    the empty ones dropped, joined with [sep]. *)
Definition stripped_strings (n : node) : list str :=
  flat_map (fun d =>
              match d with
              | NavigableString s =>
                  match strip s with
                  | [] => []
                  | s' => [s']
                  end
              | _ => []
              end)
           (descendants n).

Definition get_text (sep : str) (n : node) : str :=
  join sep (stripped_strings n).

(** The test of the script on one [tr]: it has a [data-area] attribute
    whose lower-cased value is "plyta", and the lower-cased, space-joined
    class list contains "category". *)
Definition row_matches (tr : node) : bool :=
  match tr with
  | Tag _ attrs class_ _ =>
      match attrs !! py "data-area" with
      | Some area =>
          str_eqb (lower area) (py "plyta")
          && contains (py "category") (lower (join (py " ") (default [] class_)))
      | None => false
      end
  | _ => false
  end.

(** The loop over [soup.find_all("tr")], left at the first row that passes
    the test. *)
Fixpoint first_row (trs : list node) : option node :=
  match trs with
  | [] => None
  | tr :: rest => if row_matches tr then Some tr else first_row rest
  end.

Definition bind_result {A B} (r : result A) (k : A -> result B) : result B :=
  match r with
  | Ok a => k a
  | Raise e => Raise e
  end.

(** [extract_plate_price], on the parsed document. *)
Definition extract_from_soup (soup : node) : result (option float) :=
  match first_row (find_all (py "tr") soup) with
  | None => Ok None
  | Some row =>
      match find_class (py "td") (py "price") row with
      | None => Ok None
      | Some price_td =>
          match find (py "b") price_td with
          | None => Ok None
          | Some bold =>
              match get_text [] bold with
              | [] => Ok None
              | _ =>
                  let text := get_text (py " ") bold in
                  let num_part := strip (replace (py "zł") [] (lower text)) in
                  bind_result (parse_price_pln num_part) (fun p => Ok (Some p))
              end
          end
      end
  end.

(** ** JSON values and the state dictionary *)

Inductive json :=
| JNull
| JBool (b : bool)
| JInt (n : Z)
| JFloat (f : float)
| JStr (s : str)
| JList (items : list json)
| JDict (d : gmap str json).

(** [bool(v)] *)
Definition truthy (v : json) : bool :=
  match v with
  | JNull => false
  | JBool b => b
  | JInt n => negb (n =? 0)
  | JFloat f => negb (feq f (S754_zero false))
  | JStr s => negb (bool_decide (s = []))
  | JList items => negb (bool_decide (items = []))
  | JDict d => negb (bool_decide (d = ∅))
  end.

Definition type_name (v : json) : str :=
  match v with
  | JNull => py "NoneType"
  | JBool _ => py "bool"
  | JInt _ => py "int"
  | JFloat _ => py "float"
  | JStr _ => py "str"
  | JList _ => py "list"
  | JDict _ => py "dict"
  end.

(** [v.get(key, dflt)]: only a dictionary has the method. *)
Definition json_get (v : json) (key : str) (dflt : json) : result json :=
  match v with
  | JDict d => Ok (default dflt (d !! key))
  | _ => Raise (Exn AttributeError
                    (py "'" ++ type_name v ++ py "' object has no attribute 'get'"))
  end.

(** [v[key] = x] on a dictionary (the script assigns only after [get] has
    succeeded on the same object; other values are left as they are). *)
Definition json_set (v : json) (key : str) (x : json) : json :=
  match v with
  | JDict d => JDict (<[key := x]> d)
  | _ => v
  end.

Definition default_state : json := JDict {[ py "last_below" := JBool false ]}.

(** ** Configuration, read from the environment when the module is loaded *)

Record config := {
  URL : str;
  THRESHOLD : float;
  EMAIL_TO : str;
  SMTP_HOST : str;
  SMTP_PORT : Z;
  SMTP_USER : option str;
  SMTP_PASS : option str;
  FROM_ADDR_env : option str
}.

(** Truth value of an optional string (an unset variable is [None]). *)
Definition nonempty (o : option str) : bool :=
  match o with
  | Some (_ :: _) => true
  | _ => false
  end.

(** [os.getenv("FROM_ADDR") or SMTP_USER or "no-reply@example.com"] *)
Definition FROM_ADDR (cfg : config) : str :=
  if nonempty (FROM_ADDR_env cfg) then default [] (FROM_ADDR_env cfg)
  else if nonempty (SMTP_USER cfg) then default [] (SMTP_USER cfg)
  else py "no-reply@example.com".

(** ** The world of one run *)

Inductive status := BELOW | ABOVE | NO_MATCH | ERROR.

Definition status_eqb (a b : status) : bool :=
  match a, b with
  | BELOW, BELOW | ABOVE, ABOVE | NO_MATCH, NO_MATCH | ERROR, ERROR => true
  | _, _ => false
  end.

(** One row of the log: the timestamp as written, the price ([None] gives an
    empty field, a float is written with two decimals), the status and the
    note. *)
Record observation := {
  timestamp : str;
  price : option float;
  obs_status : status;
  note : str
}.

Inductive log_line :=
| Header
| Row (o : observation).

(** What is found at [STATE_PATH]: nothing, a file that cannot be opened or
    read, a file whose text [json.load] rejects, or a file holding a JSON
    value. *)
Inductive file :=
| Absent
| Unreadable
| Unparseable
| Holds (v : json).

Record request := {
  req_url : str;
  req_headers : list (str * str);
  req_timeout : Z
}.

Record mail := {
  mail_subject : str;
  mail_from : str;
  mail_to : str;
  mail_price : float;
  mail_threshold : float;
  mail_url : str
}.

Inductive line :=
| Text (s : str)
| StatusLine (st : status) (p : float).

(** The files, what the run has emitted so far, and the dictionary object
    bound to the local variable [state] of [main] (it is updated in place,
    and the exception handler of [main] writes the same object back). *)
Record world := {
  state_file : file;
  log_file : option (list log_line);
  state_var : json;
  wire : list request;
  slept : list Q;
  alert_calls : list float;
  outbox : list mail;
  stdout : list line;
  stderr : list str
}.

(** What the surroundings answer during one run: the clock, the outcome of
    each fetch attempt, the outcome of the SMTP session. *)
Inductive attempt :=
| WarmupRaises (e : exn)
| TargetRaises (e : exn)
| Response (status_code : Z) (text : str).

Record env := {
  now : str;
  http : Z -> attempt;
  smtp : option exn
}.

(** ** The monad of the script: state and exceptions *)

Definition M (A : Type) : Type := world -> result A * world.

Definition ret {A} (a : A) : M A := fun w => (Ok a, w).
Definition raise {A} (e : exn) : M A := fun w => (Raise e, w).

Definition bind {A B} (m : M A) (k : A -> M B) : M B :=
  fun w =>
    match m w with
    | (Ok a, w') => k a w'
    | (Raise e, w') => (Raise e, w')
    end.

(** [try: m  except Exception as e: h e]; what [m] did before raising stays
    done. *)
Definition try_except {A} (m : M A) (h : exn -> M A) : M A :=
  fun w =>
    match m w with
    | (Ok a, w') => (Ok a, w')
    | (Raise e, w') => h e w'
    end.

Definition lift {A} (r : result A) : M A := fun w => (r, w).

(** Updates of one field of the world. *)
Definition with_state_file (f : file) (w : world) : world :=
  {| state_file := f; log_file := log_file w; state_var := state_var w;
     wire := wire w; slept := slept w; alert_calls := alert_calls w;
     outbox := outbox w; stdout := stdout w; stderr := stderr w |}.

Definition with_log_file (l : option (list log_line)) (w : world) : world :=
  {| state_file := state_file w; log_file := l; state_var := state_var w;
     wire := wire w; slept := slept w; alert_calls := alert_calls w;
     outbox := outbox w; stdout := stdout w; stderr := stderr w |}.

Definition with_state_var (v : json) (w : world) : world :=
  {| state_file := state_file w; log_file := log_file w; state_var := v;
     wire := wire w; slept := slept w; alert_calls := alert_calls w;
     outbox := outbox w; stdout := stdout w; stderr := stderr w |}.

Definition with_wire (r : list request) (w : world) : world :=
  {| state_file := state_file w; log_file := log_file w; state_var := state_var w;
     wire := r; slept := slept w; alert_calls := alert_calls w;
     outbox := outbox w; stdout := stdout w; stderr := stderr w |}.

Definition with_slept (q : list Q) (w : world) : world :=
  {| state_file := state_file w; log_file := log_file w; state_var := state_var w;
     wire := wire w; slept := q; alert_calls := alert_calls w;
     outbox := outbox w; stdout := stdout w; stderr := stderr w |}.

Definition with_alert_calls (c : list float) (w : world) : world :=
  {| state_file := state_file w; log_file := log_file w; state_var := state_var w;
     wire := wire w; slept := slept w; alert_calls := c;
     outbox := outbox w; stdout := stdout w; stderr := stderr w |}.

Definition with_outbox (o : list mail) (w : world) : world :=
  {| state_file := state_file w; log_file := log_file w; state_var := state_var w;
     wire := wire w; slept := slept w; alert_calls := alert_calls w;
     outbox := o; stdout := stdout w; stderr := stderr w |}.

Definition with_stdout (o : list line) (w : world) : world :=
  {| state_file := state_file w; log_file := log_file w; state_var := state_var w;
     wire := wire w; slept := slept w; alert_calls := alert_calls w;
     outbox := outbox w; stdout := o; stderr := stderr w |}.

Definition with_stderr (o : list str) (w : world) : world :=
  {| state_file := state_file w; log_file := log_file w; state_var := state_var w;
     wire := wire w; slept := slept w; alert_calls := alert_calls w;
     outbox := outbox w; stdout := stdout w; stderr := o |}.
Definition get_world : M world := fun w => (Ok w, w).
Definition modify (f : world -> world) : M unit := fun w => (Ok tt, f w).

Notation "'let*' x := m 'in' k" := (bind m (fun x => k))
  (at level 10, x name, m at level 100, k at level 200).
Notation "m >> k" := (bind m (fun _ => k))
  (at level 100, k at level 200, right associativity).

(** ** The script *)

Section Script.

(** The configuration, the parser of the [bs4] library and the answers of
    the surroundings are fixed for a run. *)
Variable cfg : config.
Variable BeautifulSoup : str -> node.
Variable ev : env.

(** [log_row]: the header is written when the log file does not exist yet;
    the row is appended.  The log directory can be created and the file can
    be written. *)
Definition log_row (ts : str) (p : option float) (st : status) (nt : str) : M unit :=
  modify (fun w =>
    let row := Row {| timestamp := ts; price := p; obs_status := st; note := nt |} in
    with_log_file (Some (match log_file w with
                         | None => [Header; row]
                         | Some rows => rows ++ [row]
                         end)) w).

(** The log after [log_row], as a function of the log before. *)
Definition logged (l : option (list log_line)) (ts : str) (p : option float)
           (st : status) (nt : str) : option (list log_line) :=
  let row := Row {| timestamp := ts; price := p; obs_status := st; note := nt |} in
  Some (match l with
        | None => [Header; row]
        | Some rows => rows ++ [row]
        end).

(** [open(STATE_PATH)] followed by [json.load]: the value in the file, or
    the exception of [open] or of the decoder (what it says is of no
    consequence, [load_state] drops it). *)
Definition read_state_file : M json :=
  let* w := get_world in
  match state_file w with
  | Holds v => ret v
  | Unparseable => raise (Exn (LibraryError (py "JSONDecodeError")) (py "Expecting value"))
  | _ => raise (Exn (LibraryError (py "OSError")) (py "cannot read the state file"))
  end.

Definition load_state : M json :=
  let* w := get_world in
  match state_file w with
  | Absent => ret default_state
  | _ => try_except read_state_file (fun _ => ret default_state)
  end.

(** [save_state]: the file then holds the dumped value; it can be written. *)
Definition save_state (state : json) : M unit :=
  modify (with_state_file (Holds state)).

Definition base_headers : list (str * str) :=
  [ (py "User-Agent",
     py "Mozilla/5.0 (Windows NT 10.0; Win64; x64) AppleWebKit/537.36 (KHTML, like Gecko) Chrome/124.0 Safari/537.36");
    (py "Accept", py "text/html,application/xhtml+xml,application/xml;q=0.9,*/*;q=0.8");
    (py "Accept-Language", py "pl-PL,pl;q=0.9,en-US;q=0.8,en;q=0.7");
    (py "Cache-Control", py "no-cache");
    (py "Pragma", py "no-cache") ].

Definition root_url : str := py "https://www.alebilet.pl/".

Definition warmup_request : request :=
  {| req_url := root_url; req_headers := base_headers; req_timeout := 15 |}.

Definition target_request (url : str) : request :=
  {| req_url := url; req_headers := base_headers ++ [(py "Referer", root_url)];
     req_timeout := 20 |}.

(** [sess.get(...)]: the request goes out. *)
Definition sess_get (r : request) : M unit :=
  modify (fun w => with_wire (wire w ++ [r]) w).

(** [time.sleep(seconds)] *)
Definition sleep (seconds : Q) : M unit :=
  modify (fun w => with_slept (slept w ++ [seconds]) w).

(** The success test of an attempt: [200 <= r.status_code < 300 and r.text
    and len(r.text) > 1000]. *)
Definition good_response (code : Z) (text : str) : bool :=
  (200 <=? code) && (code <? 300) && negb (bool_decide (text = []))
  && (1000 <? Z.of_nat (length text)).

(** The checks on the response of the target request. *)
Definition check_response (code : Z) (text : str) : M str :=
  if good_response code text then ret text
  else if (code =? 403) || (code =? 429) || (500 <=? code)
          || (Z.of_nat (length text) <? 1000)
  then raise (Exn RuntimeError (py "Bad HTTP " ++ str_of_Z code ++ py " or tiny body"))
  else raise (Exn RuntimeError (py "Unexpected HTTP " ++ str_of_Z code)).

(** The body of the [try] of one attempt: warm-up request, target request,
    checks. *)
Definition attempt_once (url : str) (attempt : Z) : M str :=
  sess_get warmup_request >>
  match http ev attempt with
  | WarmupRaises e => raise e
  | TargetRaises e => sess_get (target_request url) >> raise e
  | Response code text => sess_get (target_request url) >> check_response code text
  end.

(** [(backoff_ms / 1000.0) * (attempt + 1)], in seconds, in exact
    arithmetic. *)
Definition backoff_delay (backoff_ms attempt : Z) : Q :=
  (inject_Z backoff_ms / 1000) * inject_Z (attempt + 1).

(** The statement after the loop. *)
Definition fetch_failed (last_err : option exn) : M str :=
  raise (Exn RuntimeError
             (py "Fetch failed after retries: "
              ++ match last_err with
                 | Some e => exn_msg e
                 | None => py "None"
                 end)).

(** The loop over [range(max_retries + 1)], with [last_err] carried along. *)
Fixpoint fetch_loop (url : str) (max_retries backoff_ms : Z)
         (attempts : list Z) (last_err : option exn) : M str :=
  match attempts with
  | [] => fetch_failed last_err
  | attempt :: rest =>
      try_except (attempt_once url attempt)
        (fun e =>
           if attempt <? max_retries
           then sleep (backoff_delay backoff_ms attempt) >>
                fetch_loop url max_retries backoff_ms rest (Some e)
           else fetch_failed (Some e))
  end.

(** [range(n)] *)
Definition range (n : Z) : list Z := map Z.of_nat (seq 0 (Z.to_nat n)).

Definition fetch_html_with_warm (url : str) (max_retries backoff_ms : Z) : M str :=
  fetch_loop url max_retries backoff_ms (range (max_retries + 1)) None.

Definition extract_plate_price (html : str) : result (option float) :=
  extract_from_soup (BeautifulSoup html).

(** [SMTP_HOST and SMTP_PORT and SMTP_USER and SMTP_PASS] *)
Definition credentials_present : bool :=
  negb (bool_decide (SMTP_HOST cfg = [])) && negb (SMTP_PORT cfg =? 0)
  && nonempty (SMTP_USER cfg) && nonempty (SMTP_PASS cfg).

Definition alert_message (current_price : float) : mail :=
  {| mail_subject := py "ALERT: COMA „Płyta” < 230 zł (alebilet)";
     mail_from := FROM_ADDR cfg; mail_to := EMAIL_TO cfg;
     mail_price := current_price; mail_threshold := THRESHOLD cfg;
     mail_url := URL cfg |}.

(** [send_email_alert]: the check of the credentials, then the SMTP session
    (connection, STARTTLS, login, submission), which delivers the message or
    raises.  Every call is recorded in [alert_calls]. *)
Definition send_email_alert (current_price : float) : M unit :=
  modify (fun w => with_alert_calls (alert_calls w ++ [current_price]) w) >>
  if negb credentials_present
  then raise (Exn RuntimeError
                  (py "SMTP credentials missing. Set SMTP_USER and SMTP_PASS as repo secrets."))
  else
    match smtp ev with
    | Some e => raise e
    | None => modify (fun w => with_outbox (outbox w ++ [alert_message current_price]) w)
    end.

Definition print (l : line) : M unit :=
  modify (fun w => with_stdout (stdout w ++ [l]) w).

Definition eprint (s : str) : M unit :=
  modify (fun w => with_stderr (stderr w ++ [s]) w).

(** The local variable [state]: binding it, reading the object, and
    [state["last_below"] = b]. *)
Definition bind_state (v : json) : M unit := modify (with_state_var v).

Definition the_state : M json :=
  let* w := get_world in ret (state_var w).

Definition set_last_below (b : bool) : M unit :=
  let* state := the_state in
  bind_state (json_set state (py "last_below") (JBool b)).

Definition main : M Z :=
  let* state := load_state in
  bind_state state >>
  let* flag := lift (json_get state (py "last_below") (JBool false)) in
  let last_below := truthy flag in
  try_except
    (let* html := fetch_html_with_warm (URL cfg) 3 800 in
     let* found := lift (extract_plate_price html) in
     match found with
     | None =>
         log_row (now ev) None NO_MATCH (py "Nie znaleziono wiersza Płyta/ceny") >>
         print (Text (py "NO_MATCH")) >>
         let* state := the_state in
         save_state state >>
         ret 0
     | Some price =>
         let status := if flt price (THRESHOLD cfg) then BELOW else ABOVE in
         let* note :=
           if status_eqb status BELOW && negb last_below then
             try_except
               (send_email_alert price >>
                let note := py "Alert sent" in
                set_last_below true >>
                ret note)
               (fun e =>
                  let note := py "Email error: " ++ exn_msg e in
                  set_last_below false >>
                  ret note)
           else if status_eqb status ABOVE then
             let note :=
               if last_below then py "Latch reset (price went above threshold)" else [] in
             set_last_below false >>
             ret note
           else ret [] in
         log_row (now ev) (Some price) status note >>
         let* state := the_state in
         save_state state >>
         print (StatusLine status price) >>
         ret 0
     end)
    (fun e =>
       log_row (now ev) None ERROR (exn_msg e) >>
       eprint (py "ERROR: " ++ exn_msg e) >>
       let* state := the_state in
       save_state state >>
       ret 0).

End Script.

(** ** A process *)

(** The world in which a process starts: the two files as the previous run
    (or anybody else) left them, nothing emitted yet. *)
Definition start (f : file) (l : option (list log_line)) : world :=
  {| state_file := f; log_file := l; state_var := JNull; wire := []; slept := [];
     alert_calls := []; outbox := []; stdout := []; stderr := [] |}.

(** [sys.exit(main())]: the exit status is the value returned by [main]; an
    exception that leaves [main] ends the process with status 1. *)
Definition exit_code (r : result Z) : Z :=
  match r with
  | Ok n => n
  | Raise _ => 1
  end.

(** The value that [load_state] returns for a given file. *)
Definition loaded (f : file) : json :=
  match f with
  | Holds v => v
  | _ => default_state
  end.

(** [bool(state.get("last_below", False))] for the state loaded from a
    file; [None] when the loaded value has no [get]. *)
Definition last_below (f : file) : option bool :=
  match json_get (loaded f) (py "last_below") (JBool false) with
  | Ok flag => Some (truthy flag)
  | Raise _ => None
  end.

(** ** The parser: the cleaning as the specification words it *)

Definition swap_char (a b : N) (c : N) : N := if (c =? a)%N then b else c.
Definition drop_chars (bad : list N) (s : str) : str :=
  List.filter (fun c => negb (existsb (N.eqb c) bad)) s.

Definition clean_spec (s : str) : str :=
  map (swap_char 44 46) (drop_chars [32%N; 46%N] (map (swap_char 160 32) s)).

Definition parse_spec (s : str) : result float := float_of_str (clean_spec s).

(** ** Floats: the exact value of a finite float *)

Definition float_value (f : float) : option Q :=
  match f with
  | S754_zero _ => Some 0%Q
  | S754_finite s m e =>
      Some (inject_Z (if s then Z.neg m else Z.pos m) * Qpower 2 e)%Q
  | _ => None
  end.

(** [f] is a finite float within half a unit in the last place of [q]. *)
Definition rounds_to (q : Q) (f : float) : bool :=
  match f with
  | S754_finite s m e =>
      Qle_bool (Qabs (inject_Z (if s then Z.neg m else Z.pos m) * Qpower 2 e - q)%Q)
               (Qpower 2 (e - 1))
  | _ => false
  end.

(** The floats written [244.95], [1234.56] and [199.00]. *)
Definition f_244_95 : float := S754_finite false 8618411943159398 (-45).
Definition f_1234_56 : float := S754_finite false 5429652300748554 (-42).
Definition f_199 : float := S754_finite false 7001690045677568 (-45).

(** [f] is a finite float or a zero whose value is exactly [q]. *)
Definition float_is (q : Q) (f : float) : bool :=
  match float_value f with
  | Some v => Qeq_bool v q
  | None => false
  end.

(** ** The page fetcher: vocabulary of its properties *)

(** The body of an attempt that succeeds: the status is in [200, 300) and
    the body is longer than 1000 characters. *)
Definition attempt_body (a : attempt) : option str :=
  match a with
  | Response code text =>
      if (200 <=? code) && (code <? 300) && (1000 <? Z.of_nat (length text))
      then Some text else None
  | _ => None
  end.

(** The exception that ends an attempt that does not succeed. *)
Definition attempt_error (a : attempt) : exn :=
  match a with
  | WarmupRaises e => e
  | TargetRaises e => e
  | Response code text =>
      if (code =? 403) || (code =? 429) || (500 <=? code)
         || (Z.of_nat (length text) <? 1000)
      then Exn RuntimeError (py "Bad HTTP " ++ str_of_Z code ++ py " or tiny body")
      else Exn RuntimeError (py "Unexpected HTTP " ++ str_of_Z code)
  end.

(** The requests that an attempt puts on the wire. *)
Definition attempt_requests (url : str) (a : attempt) : list request :=
  warmup_request ::
  match a with
  | WarmupRaises _ => []
  | _ => [target_request url]
  end.

(** The exception raised once the retries are exhausted. *)
Definition FetchError (last : exn) : exn :=
  Exn RuntimeError (py "Fetch failed after retries: " ++ exn_msg last).

(** ** The extractor: vocabulary of its properties *)

(** The row on which the loop of [extract_plate_price] stops. *)
Definition selected_row (soup : node) : option node :=
  first_row (find_all (py "tr") soup).

(** What the script passes to the parser: the text of the bold element,
    lower-cased, without the currency token, stripped. *)
Definition num_part (bold : node) : str :=
  strip (replace (py "zł") [] (lower (get_text (py " ") bold))).

(** ** A run: vocabulary of its properties *)

(** One process: [main] from the world in which the process starts. *)
Definition run (cfg : config) (BeautifulSoup : str -> node) (ev : env)
           (f : file) (l : option (list log_line)) : result Z * world :=
  main cfg BeautifulSoup ev (start f l).

(** What the fetch of a run returns, what it puts on the wire and how long
    it sleeps (none of them depends on the world in which the fetch
    starts). *)
Definition fetched (cfg : config) (ev : env) : result str :=
  fst (fetch_html_with_warm ev (URL cfg) 3 800 (start Absent None)).

Definition traffic (cfg : config) (ev : env) : list request :=
  wire (snd (fetch_html_with_warm ev (URL cfg) 3 800 (start Absent None))).

Definition naps (cfg : config) (ev : env) : list Q :=
  slept (snd (fetch_html_with_warm ev (URL cfg) 3 800 (start Absent None))).

(** What the first two statements of the [try] block of [main] yield: the
    extracted price, [None] when the row or its price is not found, or the
    exception of the fetch or of the extraction. *)
Definition sighting (cfg : config) (BeautifulSoup : str -> node) (ev : env)
  : result (option float) :=
  bind_result (fetched cfg ev) (extract_plate_price BeautifulSoup).

(** Whether [send_email_alert] returns or raises (it depends neither on the
    price nor on the world). *)
Definition alert_outcome (cfg : config) (ev : env) : result unit :=
  fst (send_email_alert cfg ev (S754_zero false) (start Absent None)).

(** The row that a run has appended last. *)
Definition last_row (w : world) : option observation :=
  match log_file w with
  | Some rows =>
      match last rows with
      | Some (Row o) => Some o
      | _ => None
      end
  | None => None
  end.

(** The world of a run once the state is bound and the page fetched. *)
Definition fetched_world (cfg : config) (ev : env) (w : world) : world :=
  with_slept (slept w ++ naps cfg ev)
    (with_wire (wire w ++ traffic cfg ev) (with_state_var (loaded (state_file w)) w)).

(** The state written back by a run that sets [last_below] to [b]. *)
Definition latched_state (b : bool) (f : file) : json :=
  json_set (loaded f) (py "last_below") (JBool b).

(** ** Sample inputs *)

Definition sample_cfg : config :=
  {| URL := py "https://www.alebilet.pl/bilety/coma/2025-10-17/20:00/re-start-gra-o-wszystko";
     THRESHOLD := default S754_nan (float_literal (py "230.0"));
     EMAIL_TO := py "boryzo@gmail.com";
     SMTP_HOST := py "smtp.gmail.com";
     SMTP_PORT := 587;
     SMTP_USER := Some (py "watcher@example.com");
     SMTP_PASS := Some (py "secret");
     FROM_ADDR_env := None |}.

(** The same configuration without the SMTP secrets. *)
Definition sample_cfg_no_secrets : config :=
  {| URL := URL sample_cfg; THRESHOLD := THRESHOLD sample_cfg;
     EMAIL_TO := EMAIL_TO sample_cfg; SMTP_HOST := SMTP_HOST sample_cfg;
     SMTP_PORT := SMTP_PORT sample_cfg; SMTP_USER := None; SMTP_PASS := None;
     FROM_ADDR_env := None |}.

(** A document with one header row and the row
    [<tr data-area="plyta" class="category foo">] that holds
    [<td class="price"><b>text</b></td>]. *)
Definition price_cell (text : str) : node :=
  Tag (py "td") ∅ (Some [py "price"]) [Tag (py "b") ∅ None [NavigableString text]].

Definition plate_row (cells : list node) : node :=
  Tag (py "tr") {[ py "data-area" := py "plyta" ]} (Some [py "category"; py "foo"]) cells.

Definition sample_page (cells : list node) : node :=
  Tag (py "[document]") ∅ None
      [Tag (py "table") ∅ None
           [Tag (py "tr") ∅ (Some [py "head"]) [Tag (py "th") ∅ None [NavigableString (py "Cena")]];
            plate_row cells]].

(** A document without a matching row. *)
Definition other_page : node :=
  Tag (py "[document]") ∅ None
      [Tag (py "table") ∅ None
           [Tag (py "tr") {[ py "data-area" := py "trybuna" ]} (Some [py "category"])
                [price_cell (py "199,00 zł")]]].

(** A page body of 1001 characters. *)
Definition long_body : str := repeat 120%N 1001.

Definition sample_env : env :=
  {| now := py "2025-10-01 12:00:00";
     http := fun _ => Response 200 long_body;
     smtp := None |}.

(** The site answers 403 twice, then serves the page. *)
Definition flaky_env : env :=
  {| now := py "2025-10-01 12:00:00";
     http := fun i => if i <? 2 then Response 403 (py "Forbidden") else Response 200 long_body;
     smtp := None |}.

(** The site keeps answering 403. *)
Definition blocked_env : env :=
  {| now := py "2025-10-01 12:00:00";
     http := fun _ => Response 403 (py "Forbidden");
     smtp := None |}.

(** The SMTP session fails. *)
Definition smtp_down_env : env :=
  {| now := py "2025-10-01 12:00:00";
     http := fun _ => Response 200 long_body;
     smtp := Some (Exn (LibraryError (py "SMTPAuthenticationError"))
                       (py "(535, b'5.7.8 Username and Password not accepted')")) |}.

Definition parse_199 : str -> node := fun _ => sample_page [price_cell (py "199,00 zł")].
Definition parse_230 : str -> node := fun _ => sample_page [price_cell (py "230,00 zł")].
Definition parse_250 : str -> node := fun _ => sample_page [price_cell (py "250,00 zł")].
Definition parse_other : str -> node := fun _ => other_page.

Definition f_230 : float := S754_finite false 8092405580431360 (-45).
Definition f_250 : float := S754_finite false 8796093022208000 (-45).

(** A price cell whose bold element is empty, and one whose text is not a
    number. *)
Definition empty_cell : node :=
  Tag (py "td") ∅ (Some [py "price"]) [Tag (py "b") ∅ None [NavigableString (py "  ")]].

Definition sold_out_cell : node := price_cell (py "wyprzedane").

(** ** Further vocabulary: single runs *)

(** The console output that goes with a logged row: the error line on
    standard error for ERROR, the line "NO_MATCH" or the status line on
    standard output otherwise. *)
Definition console_of (o : observation) : list line * list str :=
  match obs_status o, price o with
  | ERROR, _ => ([], [py "ERROR: " ++ note o])
  | NO_MATCH, _ => ([Text (py "NO_MATCH")], [])
  | st, Some p => ([StatusLine st p], [])
  | _, None => ([], [])
  end.

(** The log with one more row. *)
Definition with_row (l : option (list log_line)) (o : observation) : list log_line :=
  match l with
  | None => [Header; Row o]
  | Some rows => rows ++ [Row o]
  end.

(** ** Further vocabulary: runs in sequence *)

(** Successive processes, each started on the files the previous one left:
    the value returned by [main] (or its exception) and the final world of
    each. *)
Fixpoint runs (cfg : config) (steps : list ((str -> node) * env))
         (f : file) (l : option (list log_line)) : list (result Z * world) :=
  match steps with
  | [] => []
  | (BS, ev) :: rest =>
      let rw := run cfg BS ev f l in
      rw :: runs cfg rest (state_file (snd rw)) (log_file (snd rw))
  end.

(** The log file after the last of the runs ([l] when there is none). *)
Definition final_log (l : option (list log_line)) (rws : list (result Z * world))
  : option (list log_line) :=
  match last rws with
  | Some rw => log_file (snd rw)
  | None => l
  end.

(** The sum of a list of durations. *)
Definition Qsum (l : list Q) : Q := fold_right Qplus 0%Q l.

(** A page whose price cell reads "NaN zł". *)
Definition parse_nan : str -> node := fun _ => sample_page [price_cell (py "NaN zł")].

(** ** The script when writing and parsing can fail

    [log_row], [save_state] and [BeautifulSoup] above always succeed.  In
    the script each of them can raise: [os.makedirs] and [open] on a path
    that cannot be created or written, [json.dump] on a string that UTF-8
    cannot encode, the HTML parser on markup it rejects.  Here is [main]
    once more with these three calls answered by the surroundings.  In one
    run [log_row] and [save_state] are called at most once inside the [try]
    block and at most once in the [except] handler, so four answers cover
    a run.  On the disk [reliable] and with a parser that never raises
    this is [main] itself. *)

(** What a call of [log_row] meets: the row is written; or [os.makedirs]
    or [open] raises and the log stays as it was; or [open] succeeds, so
    that the file is there afterwards, and a write raises before the row
    is complete.  In the last case a file that was not there before is
    left with the header or with nothing, as [header_kept] says. *)
Inductive log_answer :=
| LogDone
| LogFails (e : exn)
| LogCut (header_kept : bool) (e : exn).

(** What a call of [save_state] meets: the state is written; or [open]
    raises and the file stays as it was; or [json.dump] raises after [open]
    has truncated the file, which is left with a part of the text. *)
Inductive save_answer :=
| SaveDone
| OpenFails (e : exn)
| DumpFails (e : exn).

Record disk := {
  log_try : log_answer;
  save_try : save_answer;
  log_handler : log_answer;
  save_handler : save_answer
}.

(** The disk on which every write succeeds. *)
Definition reliable : disk :=
  {| log_try := LogDone; save_try := SaveDone;
     log_handler := LogDone; save_handler := SaveDone |}.

Section ScriptIO.

Variable cfg : config.
Variable parser : str -> result node.
Variable ev : env.
Variable dk : disk.

Definition log_row_io (a : log_answer) (ts : str) (p : option float) (st : status)
           (nt : str) : M unit :=
  match a with
  | LogDone => log_row ts p st nt
  | LogFails e => raise e
  | LogCut header_kept e =>
      modify (fun w =>
        with_log_file (Some (match log_file w with
                             | None => if header_kept then [Header] else []
                             | Some rows => rows
                             end)) w) >>
      raise e
  end.

Definition save_state_io (a : save_answer) (state : json) : M unit :=
  match a with
  | SaveDone => save_state state
  | OpenFails e => raise e
  | DumpFails e => modify (with_state_file Unparseable) >> raise e
  end.

(** [extract_plate_price] with a parser that can raise. *)
Definition extract_plate_price_io (html : str) : result (option float) :=
  bind_result (parser html) extract_from_soup.

Definition main_io : M Z :=
  let* state := load_state in
  bind_state state >>
  let* flag := lift (json_get state (py "last_below") (JBool false)) in
  let last_below := truthy flag in
  try_except
    (let* html := fetch_html_with_warm ev (URL cfg) 3 800 in
     let* found := lift (extract_plate_price_io html) in
     match found with
     | None =>
         log_row_io (log_try dk) (now ev) None NO_MATCH
                    (py "Nie znaleziono wiersza Płyta/ceny") >>
         print (Text (py "NO_MATCH")) >>
         let* state := the_state in
         save_state_io (save_try dk) state >>
         ret 0
     | Some price =>
         let status := if flt price (THRESHOLD cfg) then BELOW else ABOVE in
         let* note :=
           if status_eqb status BELOW && negb last_below then
             try_except
               (send_email_alert cfg ev price >>
                let note := py "Alert sent" in
                set_last_below true >>
                ret note)
               (fun e =>
                  let note := py "Email error: " ++ exn_msg e in
                  set_last_below false >>
                  ret note)
           else if status_eqb status ABOVE then
             let note :=
               if last_below then py "Latch reset (price went above threshold)" else [] in
             set_last_below false >>
             ret note
           else ret [] in
         log_row_io (log_try dk) (now ev) (Some price) status note >>
         let* state := the_state in
         save_state_io (save_try dk) state >>
         print (StatusLine status price) >>
         ret 0
     end)
    (fun e =>
       log_row_io (log_handler dk) (now ev) None ERROR (exn_msg e) >>
       eprint (py "ERROR: " ++ exn_msg e) >>
       let* state := the_state in
       save_state_io (save_handler dk) state >>
       ret 0).

End ScriptIO.

(** One process of this script. *)
Definition run_io (cfg : config) (parser : str -> result node) (ev : env) (dk : disk)
           (f : file) (l : option (list log_line)) : result Z * world :=
  main_io cfg parser ev dk (start f l).

(** What the first two statements of the [try] block yield when the parser
    can raise. *)
Definition sighting_io (cfg : config) (parser : str -> result node) (ev : env)
  : result (option float) :=
  bind_result (fetched cfg ev) (extract_plate_price_io parser).

(** The exception, if any, with which the [try] block of [main] is left
    for the [except] handler: that of the fetch or of the extraction, or
    else that of the write of the log, or else that of the write of the
    state.  (An exception of the notifier is caught where it is raised.) *)
Definition try_error (cfg : config) (parser : str -> result node) (ev : env) (dk : disk)
  : option exn :=
  match sighting_io cfg parser ev with
  | Raise e => Some e
  | Ok _ =>
      match log_try dk with
      | LogFails e | LogCut _ e => Some e
      | LogDone =>
          match save_try dk with
          | SaveDone => None
          | OpenFails e | DumpFails e => Some e
          end
      end
  end.

(** Sample disks: one on which the state cannot be written inside the [try]
    block but can afterwards, and one on which [log_row] always fails, as
    it does when [LOG_PATH] has no directory part ([os.makedirs("")]). *)
Definition busy_disk : disk :=
  {| log_try := LogDone;
     save_try := OpenFails (Exn (LibraryError (py "PermissionError"))
                                (py "[Errno 13] Permission denied: '.alebilet_state.json'"));
     log_handler := LogDone; save_handler := SaveDone |}.

Definition no_log_dir_disk : disk :=
  {| log_try := LogFails (Exn (LibraryError (py "FileNotFoundError"))
                              (py "[Errno 2] No such file or directory: ''"));
     save_try := SaveDone;
     log_handler := LogFails (Exn (LibraryError (py "FileNotFoundError"))
                                  (py "[Errno 2] No such file or directory: ''"));
     save_handler := SaveDone |}.

(** * Properties *)

(** ** The price text parser *)

Lemma replace_char_flat_map (a : N) (new s : str) :
  replace [a] new s = flat_map (fun c => if (a =? c)%N then new else [c]) s.
Proof.
  unfold replace. induction s as [|c t IH]; [reflexivity|].
  cbn [replace_from flat_map startswith length Nat.sub fmap option_fmap option_map].
  rewrite andb_true_r. destruct (a =? c)%N; cbn; now rewrite IH.
Qed.

Lemma replace_char_map (a b : N) (s : str) :
  replace [a] [b] s = map (swap_char a b) s.
Proof.
  rewrite replace_char_flat_map. induction s as [|c t IH]; [reflexivity|].
  cbn. rewrite IH. unfold swap_char. rewrite (N.eqb_sym c a).
  now destruct (a =? c)%N.
Qed.

Lemma replace_char_drop (a : N) (s : str) :
  replace [a] [] s = drop_chars [a] s.
Proof.
  rewrite replace_char_flat_map. induction s as [|c t IH]; [reflexivity|].
  cbn. rewrite IH, orb_false_r, (N.eqb_sym c a). now destruct (a =? c)%N.
Qed.

(** Dropping one dot first does not change what is left once all dots are
    dropped. *)
Lemma drop_after_replace_one (a : N) (s : str) :
  drop_chars [a] (replace_n [a] [] 1 s) = drop_chars [a] s.
Proof.
  unfold replace_n. induction s as [|c t IH]; [reflexivity|].
  cbn [replace_from startswith length Nat.sub fmap option_fmap option_map Nat.pred].
  rewrite andb_true_r. destruct (a =? c)%N eqn:E.
  - cbn [app]. apply N.eqb_eq in E. subst c.
    cbn. rewrite N.eqb_refl. cbn.
    destruct t; reflexivity.
  - cbn. rewrite orb_false_r, (N.eqb_sym c a), E. cbn. f_equal. exact IH.
Qed.

Lemma drop_chars_twice (a b : N) (s : str) :
  drop_chars [b] (drop_chars [a] s) = drop_chars [a; b] s.
Proof.
  induction s as [|c t IH]; [reflexivity|].
  cbn. rewrite !orb_false_r.
  destruct (c =? a)%N eqn:Ea; cbn.
  - exact IH.
  - rewrite orb_false_r. destruct (c =? b)%N; cbn; [exact IH | f_equal; exact IH].
Qed.

Lemma drop_chars_idem (a : N) (s : str) :
  drop_chars [a] (drop_chars [a] s) = drop_chars [a] s.
Proof.
  induction s as [|c t IH]; [reflexivity|].
  cbn. rewrite !orb_false_r.
  destruct (c =? a)%N eqn:Ea; cbn; [exact IH|].
  rewrite orb_false_r, Ea. cbn. f_equal. exact IH.
Qed.

Lemma drop_chars_replace_one_comm (a b : N) (s : str) :
  a <> b ->
  drop_chars [a] (replace_n [b] [] 1 s) = replace_n [b] [] 1 (drop_chars [a] s).
Proof.
  intros Hab. unfold replace_n. induction s as [|c t IH]; [reflexivity|].
  cbn [replace_from startswith length Nat.sub fmap option_fmap option_map Nat.pred].
  rewrite andb_true_r. destruct (b =? c)%N eqn:E.
  - apply N.eqb_eq in E. subst c. cbn [app].
    cbn. rewrite orb_false_r.
    destruct (b =? a)%N eqn:E2; [apply N.eqb_eq in E2; congruence|].
    cbn. rewrite N.eqb_refl. cbn.
    assert (forall u : str, replace_from [b] [] (Some 0%nat) 0 u = u) as Hid
      by (intros [|? ?]; reflexivity).
    rewrite !Hid. reflexivity.
  - cbn. rewrite orb_false_r. destruct (c =? a)%N eqn:E2; cbn.
    + exact IH.
    + rewrite E, andb_false_l. f_equal. exact IH.
Qed.

Lemma clean_code_spec (s : str) :
  replace (py ",") (py ".")
    (replace (py ".") []
       (replace (py " ") []
          (replace_n (py ".") [] 1
             (replace (py " ") [] (replace nbsp (py " ") s))))) = clean_spec s.
Proof.
  change (py ",") with [44%N]. change (py ".") with [46%N].
  change (py " ") with [32%N]. unfold nbsp, clean_spec.
  rewrite !replace_char_map, !replace_char_drop.
  f_equal.
  rewrite <- drop_chars_replace_one_comm by discriminate.
  rewrite drop_chars_idem, drop_chars_replace_one_comm by discriminate.
  rewrite drop_after_replace_one.
  apply drop_chars_twice.
Qed.

Lemma parse_price_pln_spec (s : str) : parse_price_pln s = parse_spec s.
Proof. unfold parse_price_pln, parse_spec. now rewrite clean_code_spec. Qed.

Lemma f_244_95_nearest : rounds_to (24495 # 100) f_244_95 = true.
Proof. vm_compute. reflexivity. Qed.

Lemma f_1234_56_nearest : rounds_to (123456 # 100) f_1234_56 = true.
Proof. vm_compute. reflexivity. Qed.

Lemma f_199_exact : float_is 199 f_199 = true.
Proof. vm_compute. reflexivity. Qed.

Lemma float_of_str_raises (s : str) :
  float_literal s = None ->
  float_of_str s = Raise (Exn ValueError (py "could not convert string to float: " ++ repr s)).
Proof. intros H. unfold float_of_str. now rewrite H. Qed.

(** C6. The parser computes [float] of the cleaned string, where cleaning
    turns every non-breaking space into a space, drops every space and every
    dot, and turns every comma into a decimal point; it maps "244,95" to
    244.95, "1 234,56" and "1.234,56" to 1234.56; and when the cleaned
    string is not a float literal the [ValueError] of [float] leaves the
    parser. *)
Theorem parse_price_pln_correct :
  (forall s, parse_price_pln s = float_of_str (clean_spec s))
  /\ parse_price_pln (py "244,95") = Ok f_244_95
  /\ parse_price_pln (py "1 234,56") = Ok f_1234_56
  /\ parse_price_pln (py "1.234,56") = Ok f_1234_56
  /\ rounds_to (24495 # 100) f_244_95 = true
  /\ rounds_to (123456 # 100) f_1234_56 = true
  /\ (forall s, float_literal (clean_spec s) = None ->
        parse_price_pln s
        = Raise (Exn ValueError
                     (py "could not convert string to float: " ++ repr (clean_spec s))))
  /\ parse_price_pln (py "abc")
     = Raise (Exn ValueError (py "could not convert string to float: 'abc'")).
Proof.
  split; [exact parse_price_pln_spec|].
  do 3 (split; [vm_compute; reflexivity|]).
  split; [exact f_244_95_nearest|]. split; [exact f_1234_56_nearest|].
  split; [|vm_compute; reflexivity].
  intros s H. rewrite parse_price_pln_spec. unfold parse_spec.
  now apply float_of_str_raises.
Qed.

(** ** The extractor *)

Lemma startswith_spec (p s : str) :
  startswith p s = true <-> exists b, s = p ++ b.
Proof.
  revert s. induction p as [|a p IH]; intros s.
  - cbn. split; eauto.
  - destruct s as [|c s]; cbn.
    + split; [discriminate | intros [b Hb]; discriminate].
    + rewrite andb_true_iff, N.eqb_eq, IH. split.
      * intros [-> [b ->]]. eauto.
      * intros [b [= -> ->]]. eauto.
Qed.

(** [p in s] holds exactly when [p] occurs in [s]. *)
Lemma contains_spec (p s : str) :
  contains p s = true <-> exists a b, s = a ++ p ++ b.
Proof.
  induction s as [|c s IH].
  - cbn. rewrite orb_false_r, startswith_spec. split.
    + intros [b Hb]. exists [], b. exact Hb.
    + intros (a & b & H). destruct a as [|? ?]; [|discriminate]. eauto.
  - cbn [contains]. rewrite orb_true_iff, startswith_spec, IH. split.
    + intros [[b Hb]|(a & b & ->)].
      * exists [], b. exact Hb.
      * exists (c :: a), b. reflexivity.
    + intros (a & b & H). destruct a as [|c' a].
      * left. eauto.
      * right. injection H as -> ->. eauto.
Qed.

(** The loop stops at the first row, in the order of the list, that passes
    the test. *)
Lemma first_row_spec (trs : list node) (row : node) :
  first_row trs = Some row
  <-> exists pre post,
        trs = pre ++ row :: post
        /\ row_matches row = true
        /\ Forall (fun r => row_matches r = false) pre.
Proof.
  induction trs as [|tr rest IH].
  - cbn. split; [discriminate|]. intros (pre & post & H & _). destruct pre; discriminate.
  - cbn [first_row]. destruct (row_matches tr) eqn:E.
    + split.
      * intros [= <-]. exists [], rest. repeat split; [assumption | constructor].
      * intros (pre & post & H & Hm & Hpre). destruct pre as [|r pre].
        -- now injection H as ->.
        -- injection H as -> _. inversion Hpre; congruence.
    + rewrite IH. split.
      * intros (pre & post & -> & Hm & Hpre). exists (tr :: pre), post.
        repeat split; [assumption | now constructor].
      * intros (pre & post & H & Hm & Hpre). destruct pre as [|r pre].
        -- injection H as -> _. congruence.
        -- injection H as -> ->. inversion Hpre; subst. eauto.
Qed.

Lemma first_row_none (trs : list node) :
  first_row trs = None <-> Forall (fun r => row_matches r = false) trs.
Proof.
  induction trs as [|tr rest IH]; cbn [first_row].
  - split; [constructor | reflexivity].
  - destruct (row_matches tr) eqn:E.
    + split; [discriminate | intros H; inversion H; congruence].
    + rewrite IH. split; [now constructor | intros H; now inversion H].
Qed.

Lemma row_matches_spec (tr : node) :
  row_matches tr = true
  <-> exists name attrs class_ contents area,
        tr = Tag name attrs class_ contents
        /\ attrs !! py "data-area" = Some area
        /\ lower area = py "plyta"
        /\ exists a b, lower (join (py " ") (default [] class_)) = a ++ py "category" ++ b.
Proof.
  split.
  - destruct tr as [s|s|name attrs class_ contents]; try discriminate.
    cbn [row_matches]. destruct (attrs !! py "data-area") as [area|] eqn:E; [|discriminate].
    rewrite andb_true_iff. unfold str_eqb. rewrite bool_decide_eq_true, contains_spec.
    intros [H1 H2]. exists name, attrs, class_, contents, area. auto.
  - intros (name & attrs & class_ & contents & area & -> & E & H1 & H2).
    cbn [row_matches]. rewrite E, andb_true_iff. unfold str_eqb.
    rewrite bool_decide_eq_true, contains_spec. auto.
Qed.

Lemma extract_found (BS : str -> node) (html : str) (row price_td bold : node) :
  selected_row (BS html) = Some row ->
  find_class (py "td") (py "price") row = Some price_td ->
  find (py "b") price_td = Some bold ->
  get_text [] bold <> [] ->
  extract_plate_price BS html
  = bind_result (parse_price_pln (num_part bold)) (fun p => Ok (Some p)).
Proof.
  intros Hrow Htd Hb Htext. unfold extract_plate_price, extract_from_soup.
  unfold selected_row in Hrow. rewrite Hrow, Htd, Hb.
  destruct (get_text [] bold); [congruence | reflexivity].
Qed.

(** C5. The extractor stops at the first [tr], in document order, whose
    [data-area] lower-cases to "plyta" and whose lower-cased, space-joined
    class list contains "category"; it returns [None] when there is no such
    row, when that row has no [td] of class "price", when that cell has no
    [b], and when the text of its first [b] is empty once stripped;
    otherwise it returns what the parser makes of the text, so that a
    failure of the parser leaves the extractor as an exception; a row whose
    price cell is [<td class="price"><b>199,00 zł</b></td>] gives 199.00. *)
Theorem extractor_contract (BS : str -> node) (html : str) :
  (forall row,
      selected_row (BS html) = Some row
      <-> exists pre post,
            find_all (py "tr") (BS html) = pre ++ row :: post
            /\ row_matches row = true
            /\ Forall (fun r => row_matches r = false) pre)
  /\ (forall tr,
        row_matches tr = true
        <-> exists name attrs class_ contents area,
              tr = Tag name attrs class_ contents
              /\ attrs !! py "data-area" = Some area
              /\ lower area = py "plyta"
              /\ exists a b,
                   lower (join (py " ") (default [] class_)) = a ++ py "category" ++ b)
  /\ (Forall (fun r => row_matches r = false) (find_all (py "tr") (BS html)) ->
      extract_plate_price BS html = Ok None)
  /\ (forall row,
        selected_row (BS html) = Some row ->
        find_class (py "td") (py "price") row = None ->
        extract_plate_price BS html = Ok None)
  /\ (forall row price_td,
        selected_row (BS html) = Some row ->
        find_class (py "td") (py "price") row = Some price_td ->
        find (py "b") price_td = None ->
        extract_plate_price BS html = Ok None)
  /\ (forall row price_td bold,
        selected_row (BS html) = Some row ->
        find_class (py "td") (py "price") row = Some price_td ->
        find (py "b") price_td = Some bold ->
        get_text [] bold = [] ->
        extract_plate_price BS html = Ok None)
  /\ (forall row price_td bold,
        selected_row (BS html) = Some row ->
        find_class (py "td") (py "price") row = Some price_td ->
        find (py "b") price_td = Some bold ->
        get_text [] bold <> [] ->
        (forall p, parse_price_pln (num_part bold) = Ok p ->
                   extract_plate_price BS html = Ok (Some p))
        /\ (forall e, parse_price_pln (num_part bold) = Raise e ->
                      extract_plate_price BS html = Raise e))
  /\ (forall row,
        selected_row (BS html) = Some row ->
        find_class (py "td") (py "price") row = Some (price_cell (py "199,00 zł")) ->
        extract_plate_price BS html = Ok (Some f_199))
  /\ float_is 199 f_199 = true
  /\ extract_from_soup (sample_page [price_cell (py "199,00 zł")]) = Ok (Some f_199)
  /\ extract_from_soup other_page = Ok None
  /\ extract_from_soup (sample_page [empty_cell]) = Ok None
  /\ extract_from_soup (sample_page [sold_out_cell])
     = Raise (Exn ValueError (py "could not convert string to float: 'wyprzedane'")).
Proof.
  split; [intros row; apply first_row_spec|].
  split; [exact row_matches_spec|].
  split.
  { intros H. apply first_row_none in H. unfold extract_plate_price, extract_from_soup.
    now rewrite H. }
  split.
  { intros row Hrow Htd. unfold extract_plate_price, extract_from_soup.
    unfold selected_row in Hrow. now rewrite Hrow, Htd. }
  split.
  { intros row td Hrow Htd Hb. unfold extract_plate_price, extract_from_soup.
    unfold selected_row in Hrow. now rewrite Hrow, Htd, Hb. }
  split.
  { intros row td bold Hrow Htd Hb Htext. unfold extract_plate_price, extract_from_soup.
    unfold selected_row in Hrow. now rewrite Hrow, Htd, Hb, Htext. }
  split.
  { intros row td bold Hrow Htd Hb Htext.
    rewrite (extract_found BS html row td bold Hrow Htd Hb Htext).
    split; intros x Hx; now rewrite Hx. }
  split.
  { intros row Hrow Htd.
    rewrite (extract_found BS html row (price_cell (py "199,00 zł"))
               (Tag (py "b") ∅ None [NavigableString (py "199,00 zł")]) Hrow Htd).
    - vm_compute. reflexivity.
    - vm_compute. reflexivity.
    - vm_compute. discriminate. }
  split; [exact f_199_exact|].
  split; [vm_compute; reflexivity|].
  split; [vm_compute; reflexivity|].
  split; vm_compute; reflexivity.
Qed.

(** ** The monad and the world *)

Arguments py : simpl never.

Lemma world_eta (w : world) :
  with_slept (slept w) (with_wire (wire w) w) = w.
Proof. now destruct w. Qed.

(** ** The page fetcher *)

Section Fetcher.

Variable ev : env.
Variables (url : str) (max_retries backoff_ms : Z).

Lemma good_response_body (code : Z) (text : str) :
  good_response code text = true <-> attempt_body (Response code text) = Some text.
Proof.
  unfold good_response, attempt_body.
  destruct ((200 <=? code) && (code <? 300)); cbn; [|easy].
  destruct (1000 <? Z.of_nat (length text)) eqn:E.
  - rewrite andb_true_r. split; [reflexivity|]. intros _.
    destruct text; [cbn in E; discriminate|]. reflexivity.
  - rewrite andb_false_r. easy.
Qed.

Lemma attempt_body_good (code : Z) (text body : str) :
  attempt_body (Response code text) = Some body ->
  good_response code text = true /\ body = text.
Proof.
  intros H. assert (body = text) as ->.
  { unfold attempt_body in H. destruct (_ && _); congruence. }
  split; [now apply good_response_body | reflexivity].
Qed.

Lemma attempt_once_succeeds (i : Z) (body : str) (w : world) :
  attempt_body (http ev i) = Some body ->
  attempt_once ev url i w
  = (Ok body, with_wire (wire w ++ attempt_requests url (http ev i)) w).
Proof.
  intros H. unfold attempt_once. destruct (http ev i) as [e|e|code text]; try discriminate.
  apply attempt_body_good in H as [Hg ->].
  unfold bind, sess_get, modify, check_response. rewrite Hg.
  cbn. now rewrite <- app_assoc.
Qed.

Lemma attempt_once_fails (i : Z) (w : world) :
  attempt_body (http ev i) = None ->
  attempt_once ev url i w
  = (Raise (attempt_error (http ev i)),
     with_wire (wire w ++ attempt_requests url (http ev i)) w).
Proof.
  intros H. unfold attempt_once. destruct (http ev i) as [e|e|code text].
  - reflexivity.
  - unfold bind, sess_get, modify, raise. cbn. now rewrite <- app_assoc.
  - assert (good_response code text = false) as Hg.
    { destruct (good_response code text) eqn:E; [|reflexivity].
      apply good_response_body in E. congruence. }
    unfold bind, sess_get, modify, check_response. rewrite Hg.
    cbn [attempt_error]. destruct (_ || _); cbn; now rewrite <- app_assoc.
Qed.

(** A prefix of failed attempts, each followed by its sleep. *)
Lemma fetch_loop_skip (pre rest : list Z) (last_err : option exn) (w : world) :
  Forall (fun i => attempt_body (http ev i) = None /\ i < max_retries) pre ->
  fetch_loop ev url max_retries backoff_ms (pre ++ rest) last_err w
  = fetch_loop ev url max_retries backoff_ms rest
      (match last pre with
       | Some i => Some (attempt_error (http ev i))
       | None => last_err
       end)
      (with_slept (slept w ++ map (backoff_delay backoff_ms) pre)
         (with_wire (wire w ++ flat_map (fun i => attempt_requests url (http ev i)) pre) w)).
Proof.
  revert last_err w. induction pre as [|i pre IH]; intros last_err w Hpre.
  - cbn. rewrite !app_nil_r. now rewrite world_eta.
  - inversion Hpre as [|? ? [Hbad Hlt] Hpre']; subst.
    cbn [app fetch_loop]. unfold try_except at 1.
    rewrite (attempt_once_fails _ _ Hbad).
    apply Z.ltb_lt in Hlt. rewrite Hlt.
    unfold bind at 1, sleep at 1, modify at 1.
    rewrite IH by assumption.
    f_equal.
    + destruct pre as [|z pre]; [reflexivity|].
      change (last (i :: z :: pre)) with (last (z :: pre)).
      destruct (last (z :: pre)) eqn:E; [reflexivity|].
      apply last_None in E. discriminate.
    + cbn. now rewrite <- !app_assoc.
Qed.

Lemma fetch_loop_hit (i : Z) (body : str) (rest : list Z) (last_err : option exn)
      (w : world) :
  attempt_body (http ev i) = Some body ->
  fetch_loop ev url max_retries backoff_ms (i :: rest) last_err w
  = (Ok body, with_wire (wire w ++ attempt_requests url (http ev i)) w).
Proof.
  intros H. cbn [fetch_loop]. unfold try_except.
  now rewrite (attempt_once_succeeds _ _ _ H).
Qed.

Lemma fetch_loop_last (i : Z) (rest : list Z) (last_err : option exn) (w : world) :
  attempt_body (http ev i) = None ->
  max_retries <= i ->
  fetch_loop ev url max_retries backoff_ms (i :: rest) last_err w
  = (Raise (FetchError (attempt_error (http ev i))),
     with_wire (wire w ++ attempt_requests url (http ev i)) w).
Proof.
  intros H Hge. cbn [fetch_loop]. unfold try_except.
  rewrite (attempt_once_fails _ _ H).
  apply Z.ltb_ge in Hge. now rewrite Hge.
Qed.

Lemma in_range (n j : Z) : In j (range n) -> 0 <= j < n.
Proof.
  unfold range. intros H. apply in_map_iff in H as (k & <- & Hk).
  apply in_seq in Hk. lia.
Qed.

Lemma range_succ (n : Z) : 0 <= n -> range (n + 1) = range n ++ [n].
Proof.
  intros Hn. unfold range.
  replace (Z.to_nat (n + 1)) with (Z.to_nat n + 1)%nat by lia.
  rewrite seq_app, map_app. cbn. now rewrite Z2Nat.id.
Qed.

Lemma range_split (n i : Z) :
  0 <= i < n -> exists post, range n = range i ++ i :: post.
Proof.
  intros Hi. unfold range.
  replace (Z.to_nat n) with (Z.to_nat i + S (Z.to_nat (n - i - 1)))%nat by lia.
  rewrite seq_app, map_app. cbn. rewrite Z2Nat.id by lia. eauto.
Qed.

Lemma length_range (n : Z) : length (range n) = Z.to_nat n.
Proof. unfold range. now rewrite length_map, length_seq. Qed.

(** Among the attempts [0 .. n - 1] either none succeeds or there is a
    first one that does. *)
Lemma first_success (n : nat) :
  (forall j, 0 <= j < Z.of_nat n -> attempt_body (http ev j) = None)
  \/ exists i body,
       0 <= i < Z.of_nat n /\ attempt_body (http ev i) = Some body
       /\ forall j, 0 <= j < i -> attempt_body (http ev j) = None.
Proof.
  induction n as [|n [IH|IH]].
  - left. lia.
  - destruct (attempt_body (http ev (Z.of_nat n))) as [body|] eqn:E.
    + right. exists (Z.of_nat n), body. repeat split; [lia | lia | assumption | assumption].
    + left. intros j Hj. destruct (Z.eq_dec j (Z.of_nat n)) as [->|]; [assumption|].
      apply IH. lia.
  - right. destruct IH as (i & body & Hi & Hb & Hbefore).
    exists i, body. repeat split; [lia | lia | assumption | assumption].
Qed.

(** The first attempt that succeeds ends the fetch: its body is returned,
    and every attempt before it was followed by its sleep. *)
Lemma fetch_first_success (i : Z) (body : str) (w : world) :
  0 <= i <= max_retries ->
  attempt_body (http ev i) = Some body ->
  (forall j, 0 <= j < i -> attempt_body (http ev j) = None) ->
  fetch_html_with_warm ev url max_retries backoff_ms w
  = (Ok body,
     with_slept (slept w ++ map (backoff_delay backoff_ms) (range i))
       (with_wire (wire w ++ flat_map (fun k => attempt_requests url (http ev k))
                                      (range (i + 1))) w)).
Proof.
  intros Hi Hgood Hbefore. unfold fetch_html_with_warm.
  destruct (range_split (max_retries + 1) i) as [post ->]; [lia|].
  rewrite fetch_loop_skip.
  - rewrite (fetch_loop_hit _ _ _ _ _ Hgood).
    rewrite range_succ, flat_map_app by lia. cbn. now rewrite app_nil_r, <- app_assoc.
  - apply Forall_forall. intros j Hj. apply list_elem_of_In, in_range in Hj.
    split; [apply Hbefore | ]; lia.
Qed.

(** When no attempt succeeds the fetch raises, after [max_retries + 1]
    attempts and [max_retries] sleeps. *)
Lemma fetch_exhausted (w : world) :
  0 <= max_retries ->
  (forall j, 0 <= j <= max_retries -> attempt_body (http ev j) = None) ->
  fetch_html_with_warm ev url max_retries backoff_ms w
  = (Raise (FetchError (attempt_error (http ev max_retries))),
     with_slept (slept w ++ map (backoff_delay backoff_ms) (range max_retries))
       (with_wire (wire w ++ flat_map (fun k => attempt_requests url (http ev k))
                                      (range (max_retries + 1))) w)).
Proof.
  intros Hmr Hall. unfold fetch_html_with_warm.
  rewrite range_succ by assumption.
  rewrite fetch_loop_skip.
  - rewrite fetch_loop_last; [ | apply Hall; lia | lia].
    rewrite flat_map_app. cbn. now rewrite app_nil_r, <- app_assoc.
  - apply Forall_forall. intros j Hj. apply list_elem_of_In, in_range in Hj.
    split; [apply Hall | ]; lia.
Qed.

(** What a fetch returns and what it adds to the wire and to the sleeps do
    not depend on the world it starts in; it touches nothing else. *)
Lemma fetch_frame :
  0 <= max_retries ->
  exists r reqs naps, forall w,
    fetch_html_with_warm ev url max_retries backoff_ms w
    = (r, with_slept (slept w ++ naps) (with_wire (wire w ++ reqs) w)).
Proof.
  intros Hmr.
  destruct (first_success (Z.to_nat (max_retries + 1))) as [Hnone|(i & body & Hi & Hb & Hbefore)].
  - eexists _, _, _. intros w. apply fetch_exhausted; [assumption|].
    intros j Hj. apply Hnone. lia.
  - eexists _, _, _. intros w.
    apply (fetch_first_success i body w); [lia | assumption | assumption].
Qed.

Lemma backoff_delay_ms (i : Z) :
  (backoff_delay backoff_ms i * 1000 == inject_Z (backoff_ms * (i + 1)))%Q.
Proof.
  unfold backoff_delay. rewrite inject_Z_mult. field.
Qed.

End Fetcher.

(** C4. With [max_retries >= 0], a fetch returns a body exactly when one of
    the attempts [0 .. max_retries] answers with a status in [200, 300) and
    a body longer than 1000 characters, and the body is that of the first
    such attempt; every attempt before it failed and was followed by a sleep
    of [backoff_ms * (attempt + 1)] milliseconds; when all [max_retries + 1]
    attempts fail there are [max_retries] sleeps (none after the last
    attempt) and the fetch raises the error that carries the message of the
    last attempt's error. *)
Theorem fetch_retry_semantics (ev : env) (url : str) (max_retries backoff_ms : Z)
        (w w' : world) (r : result str) :
  0 <= max_retries ->
  fetch_html_with_warm ev url max_retries backoff_ms w = (r, w') ->
  (forall code text,
      attempt_body (Response code text) = Some text
      <-> 200 <= code < 300 /\ (1000 < length text)%nat)
  /\ (forall a body, attempt_body a = Some body -> exists code, a = Response code body)
  /\ ((exists body, r = Ok body)
      <-> exists i body, 0 <= i <= max_retries /\ attempt_body (http ev i) = Some body)
  /\ (forall body, r = Ok body ->
        exists i,
          0 <= i <= max_retries
          /\ attempt_body (http ev i) = Some body
          /\ (forall j, 0 <= j < i -> attempt_body (http ev j) = None)
          /\ slept w' = slept w ++ map (backoff_delay backoff_ms) (range i)
          /\ wire w'
             = wire w ++ flat_map (fun k => attempt_requests url (http ev k)) (range (i + 1)))
  /\ ((forall j, 0 <= j <= max_retries -> attempt_body (http ev j) = None) ->
        r = Raise (FetchError (attempt_error (http ev max_retries)))
        /\ slept w' = slept w ++ map (backoff_delay backoff_ms) (range max_retries)
        /\ wire w'
           = wire w ++ flat_map (fun k => attempt_requests url (http ev k))
                                (range (max_retries + 1))
        /\ length (range (max_retries + 1)) = Z.to_nat (max_retries + 1))
  /\ (forall i, (backoff_delay backoff_ms i * 1000 == inject_Z (backoff_ms * (i + 1)))%Q).
Proof.
  intros Hmr Hrun.
  assert (Hcases := first_success ev (Z.to_nat (max_retries + 1))).
  split; [|split; [|split; [|split; [|split]]]].
  - intros code text. unfold attempt_body.
    destruct (200 <=? code) eqn:E1, (code <? 300) eqn:E2,
             (1000 <? Z.of_nat (length text)) eqn:E3; cbn; split; try easy; lia.
  - intros [e|e|code text] body H; try discriminate.
    exists code. unfold attempt_body in H. destruct (_ && _); congruence.
  - split.
    + intros [body ->]. destruct Hcases as [Hnone|(i & b & Hi & Hb & _)].
      * rewrite fetch_exhausted in Hrun; [discriminate | assumption | ].
        intros j Hj. apply Hnone. lia.
      * exists i, b. split; [lia | assumption].
    + intros (i0 & b0 & Hi0 & Hb0). destruct Hcases as [Hnone|(i & b & Hi & Hb & Hbefore)].
      * rewrite Hnone in Hb0 by lia. discriminate.
      * rewrite (fetch_first_success ev url max_retries backoff_ms i b) in Hrun;
          [ | lia | assumption | assumption].
        exists b. congruence.
  - intros body ->. destruct Hcases as [Hnone|(i & b & Hi & Hb & Hbefore)].
    + rewrite fetch_exhausted in Hrun; [discriminate | assumption | ].
      intros j Hj. apply Hnone. lia.
    + rewrite (fetch_first_success ev url max_retries backoff_ms i b) in Hrun;
        [ | lia | assumption | assumption].
      injection Hrun as -> <-. exists i. repeat split; (lia || assumption).
  - intros Hall. rewrite fetch_exhausted in Hrun by assumption.
    injection Hrun as <- <-. repeat split. apply length_range.
  - apply backoff_delay_ms.
Qed.

Lemma fetch_retry_semantics_witness :
  exists body,
    fst (fetch_html_with_warm flaky_env (URL sample_cfg) 3 800 (start Absent None))
    = Ok body.
Proof.
  pose (X := fetch_html_with_warm flaky_env (URL sample_cfg) 3 800 (start Absent None)).
  destruct (fetch_retry_semantics flaky_env (URL sample_cfg) 3 800 (start Absent None)
                                  (snd X) (fst X))
    as (_ & _ & Hiff & _); [lia | vm_compute; reflexivity |].
  apply Hiff. exists 2, long_body. split; [lia | vm_compute; reflexivity].
Defined.

(** ** One run *)

Section Run.

Variable cfg : config.
Variable BS : str -> node.
Variable ev : env.

Lemma load_state_loaded (w : world) :
  load_state w = (Ok (loaded (state_file w)), w).
Proof.
  unfold load_state, bind, get_world, try_except, read_state_file, bind, get_world.
  destruct (state_file w) eqn:E; cbn; rewrite ?E; reflexivity.
Qed.

Lemma fetch_run (w : world) :
  fetch_html_with_warm ev (URL cfg) 3 800 w
  = (fetched cfg ev,
     with_slept (slept w ++ naps cfg ev) (with_wire (wire w ++ traffic cfg ev) w)).
Proof.
  destruct (fetch_frame ev (URL cfg) 3 800) as (r & reqs & sl & H); [lia|].
  unfold fetched, traffic, naps. rewrite !H. reflexivity.
Qed.

Lemma send_run (p : float) (w : world) :
  send_email_alert cfg ev p w
  = match alert_outcome cfg ev with
    | Ok _ =>
        (Ok tt, with_outbox (outbox w ++ [alert_message cfg p])
                  (with_alert_calls (alert_calls w ++ [p]) w))
    | Raise e => (Raise e, with_alert_calls (alert_calls w ++ [p]) w)
    end.
Proof.
  unfold alert_outcome, send_email_alert, bind, modify, raise.
  destruct (credentials_present cfg); cbn; [|reflexivity].
  destruct (smtp ev); reflexivity.
Qed.

Ltac start_main flag Hflag :=
  unfold main; unfold bind at 1; rewrite load_state_loaded;
  unfold bind at 1, bind_state at 1, modify at 1;
  unfold bind at 1, lift at 1; rewrite Hflag;
  unfold try_except at 1; unfold bind at 1; rewrite fetch_run.

Lemma main_error (w : world) (flag : json) (e : exn) :
  json_get (loaded (state_file w)) (py "last_below") (JBool false) = Ok flag ->
  sighting cfg BS ev = Raise e ->
  main cfg BS ev w
  = (Ok 0,
     with_state_file (Holds (loaded (state_file w)))
       (with_stderr (stderr w ++ [py "ERROR: " ++ exn_msg e])
          (with_log_file (logged (log_file w) (now ev) None ERROR (exn_msg e))
             (fetched_world cfg ev w)))).
Proof.
  intros Hflag Hs. start_main flag Hflag.
  unfold sighting in Hs. destruct (fetched cfg ev) as [html|e'].
  - cbn in Hs. unfold bind at 1, lift at 1. rewrite Hs. reflexivity.
  - cbn in Hs. injection Hs as ->. reflexivity.
Qed.

Ltac see_price Hs :=
  let html := fresh "html" in
  unfold sighting in Hs; destruct (fetched cfg ev) as [html|]; [|discriminate];
  cbn in Hs; unfold bind at 1, lift at 1; rewrite Hs.

Lemma main_no_match (w : world) (flag : json) :
  json_get (loaded (state_file w)) (py "last_below") (JBool false) = Ok flag ->
  sighting cfg BS ev = Ok None ->
  main cfg BS ev w
  = (Ok 0,
     with_state_file (Holds (loaded (state_file w)))
       (with_stdout (stdout w ++ [Text (py "NO_MATCH")])
          (with_log_file
             (logged (log_file w) (now ev) None NO_MATCH
                     (py "Nie znaleziono wiersza Płyta/ceny"))
             (fetched_world cfg ev w)))).
Proof.
  intros Hflag Hs. start_main flag Hflag. see_price Hs. reflexivity.
Qed.

Lemma main_below_sent (w : world) (flag : json) (p : float) :
  json_get (loaded (state_file w)) (py "last_below") (JBool false) = Ok flag ->
  truthy flag = false ->
  sighting cfg BS ev = Ok (Some p) ->
  flt p (THRESHOLD cfg) = true ->
  alert_outcome cfg ev = Ok tt ->
  main cfg BS ev w
  = (Ok 0,
     with_stdout (stdout w ++ [StatusLine BELOW p])
       (with_state_file (Holds (latched_state true (state_file w)))
          (with_log_file (logged (log_file w) (now ev) (Some p) BELOW (py "Alert sent"))
             (with_state_var (latched_state true (state_file w))
                (with_outbox (outbox w ++ [alert_message cfg p])
                   (with_alert_calls (alert_calls w ++ [p])
                      (fetched_world cfg ev w))))))).
Proof.
  intros Hflag Hlb Hs Hlt Hsend. start_main flag Hflag. see_price Hs.
  rewrite Hlt, Hlb. cbn [status_eqb andb negb].
  unfold bind at 1, try_except at 1, bind at 1. rewrite send_run, Hsend.
  reflexivity.
Qed.

Lemma main_below_failed (w : world) (flag : json) (p : float) (e : exn) :
  json_get (loaded (state_file w)) (py "last_below") (JBool false) = Ok flag ->
  truthy flag = false ->
  sighting cfg BS ev = Ok (Some p) ->
  flt p (THRESHOLD cfg) = true ->
  alert_outcome cfg ev = Raise e ->
  main cfg BS ev w
  = (Ok 0,
     with_stdout (stdout w ++ [StatusLine BELOW p])
       (with_state_file (Holds (latched_state false (state_file w)))
          (with_log_file
             (logged (log_file w) (now ev) (Some p) BELOW (py "Email error: " ++ exn_msg e))
             (with_state_var (latched_state false (state_file w))
                (with_alert_calls (alert_calls w ++ [p])
                   (fetched_world cfg ev w)))))).
Proof.
  intros Hflag Hlb Hs Hlt Hsend. start_main flag Hflag. see_price Hs.
  rewrite Hlt, Hlb. cbn [status_eqb andb negb].
  unfold bind at 1, try_except at 1, bind at 1. rewrite send_run, Hsend.
  reflexivity.
Qed.

Lemma main_below_latched (w : world) (flag : json) (p : float) :
  json_get (loaded (state_file w)) (py "last_below") (JBool false) = Ok flag ->
  truthy flag = true ->
  sighting cfg BS ev = Ok (Some p) ->
  flt p (THRESHOLD cfg) = true ->
  main cfg BS ev w
  = (Ok 0,
     with_stdout (stdout w ++ [StatusLine BELOW p])
       (with_state_file (Holds (loaded (state_file w)))
          (with_log_file (logged (log_file w) (now ev) (Some p) BELOW [])
             (fetched_world cfg ev w)))).
Proof.
  intros Hflag Hlb Hs Hlt. start_main flag Hflag. see_price Hs.
  rewrite Hlt, Hlb. reflexivity.
Qed.

Lemma main_above (w : world) (flag : json) (p : float) :
  json_get (loaded (state_file w)) (py "last_below") (JBool false) = Ok flag ->
  sighting cfg BS ev = Ok (Some p) ->
  flt p (THRESHOLD cfg) = false ->
  main cfg BS ev w
  = (Ok 0,
     with_stdout (stdout w ++ [StatusLine ABOVE p])
       (with_state_file (Holds (latched_state false (state_file w)))
          (with_log_file
             (logged (log_file w) (now ev) (Some p) ABOVE
                     (if truthy flag then py "Latch reset (price went above threshold)"
                      else []))
             (with_state_var (latched_state false (state_file w))
                (fetched_world cfg ev w))))).
Proof.
  intros Hflag Hs Hlt. start_main flag Hflag. see_price Hs.
  rewrite Hlt. reflexivity.
Qed.

Lemma main_no_get (w : world) (e : exn) :
  json_get (loaded (state_file w)) (py "last_below") (JBool false) = Raise e ->
  main cfg BS ev w = (Raise e, with_state_var (loaded (state_file w)) w).
Proof.
  intros Hflag. unfold main. unfold bind at 1. rewrite load_state_loaded.
  unfold bind at 1, bind_state at 1, modify at 1.
  unfold bind at 1, lift at 1. now rewrite Hflag.
Qed.



Lemma last_row_logged (w : world) (l : option (list log_line)) (ts : str)
      (p : option float) (st : status) (nt : str) :
  log_file w = logged l ts p st nt ->
  last_row w = Some {| timestamp := ts; price := p; obs_status := st; note := nt |}.
Proof.
  intros H. unfold last_row. rewrite H. unfold logged.
  destruct l as [rows|]; [|reflexivity]. now rewrite last_snoc.
Qed.

Lemma last_below_get (f : file) (b : bool) :
  last_below f = Some b ->
  exists flag,
    json_get (loaded f) (py "last_below") (JBool false) = Ok flag /\ truthy flag = b.
Proof.
  unfold last_below. destruct (json_get _ _ _) as [flag|e]; [|discriminate].
  intros [= <-]. eauto.
Qed.

Lemma last_below_no_get (f : file) :
  last_below f = None ->
  exists e, json_get (loaded f) (py "last_below") (JBool false) = Raise e.
Proof.
  unfold last_below. destruct (json_get _ _ _) as [flag|e]; [discriminate|]. eauto.
Qed.

(** After [state["last_below"] = b] the state answers [b]. *)
Lemma last_below_latched (f : file) (flag : json) (b : bool) :
  json_get (loaded f) (py "last_below") (JBool false) = Ok flag ->
  last_below (Holds (latched_state b f)) = Some b.
Proof.
  unfold last_below, latched_state. cbn [loaded].
  destruct (loaded f) as [| | | | | |d]; try discriminate. intros _.
  cbn [json_set json_get]. now rewrite lookup_insert_eq.
Qed.

Lemma last_below_loaded (f : file) : last_below (Holds (loaded f)) = last_below f.
Proof. reflexivity. Qed.

(** Equal floats are not below one another. *)
Lemma feq_not_flt (x y : float) : feq x y = true -> flt x y = false.
Proof.
  unfold feq, flt, SFeqb, SFltb. destruct (SFcompare x y) as [[| |]|]; congruence.
Qed.

(** The same, for a process: [main] from the world in which it starts. *)

Lemma run_error (f : file) (l : option (list log_line)) (b : bool) (e : exn) :
  last_below f = Some b ->
  sighting cfg BS ev = Raise e ->
  run cfg BS ev f l
  = (Ok 0,
     with_state_file (Holds (loaded f))
       (with_stderr [py "ERROR: " ++ exn_msg e]
          (with_log_file (logged l (now ev) None ERROR (exn_msg e))
             (fetched_world cfg ev (start f l))))).
Proof.
  intros Hlb Hs. apply last_below_get in Hlb as (flag & Hflag & _).
  exact (main_error (start f l) flag e Hflag Hs).
Qed.

Lemma run_no_match (f : file) (l : option (list log_line)) (b : bool) :
  last_below f = Some b ->
  sighting cfg BS ev = Ok None ->
  run cfg BS ev f l
  = (Ok 0,
     with_state_file (Holds (loaded f))
       (with_stdout [Text (py "NO_MATCH")]
          (with_log_file
             (logged l (now ev) None NO_MATCH (py "Nie znaleziono wiersza Płyta/ceny"))
             (fetched_world cfg ev (start f l))))).
Proof.
  intros Hlb Hs. apply last_below_get in Hlb as (flag & Hflag & _).
  exact (main_no_match (start f l) flag Hflag Hs).
Qed.

Lemma run_below_sent (f : file) (l : option (list log_line)) (p : float) :
  last_below f = Some false ->
  sighting cfg BS ev = Ok (Some p) ->
  flt p (THRESHOLD cfg) = true ->
  alert_outcome cfg ev = Ok tt ->
  run cfg BS ev f l
  = (Ok 0,
     with_stdout [StatusLine BELOW p]
       (with_state_file (Holds (latched_state true f))
          (with_log_file (logged l (now ev) (Some p) BELOW (py "Alert sent"))
             (with_state_var (latched_state true f)
                (with_outbox [alert_message cfg p]
                   (with_alert_calls [p] (fetched_world cfg ev (start f l)))))))).
Proof.
  intros Hlb Hs Hlt Hsend. apply last_below_get in Hlb as (flag & Hflag & Hb).
  exact (main_below_sent (start f l) flag p Hflag Hb Hs Hlt Hsend).
Qed.

Lemma run_below_failed (f : file) (l : option (list log_line)) (p : float) (e : exn) :
  last_below f = Some false ->
  sighting cfg BS ev = Ok (Some p) ->
  flt p (THRESHOLD cfg) = true ->
  alert_outcome cfg ev = Raise e ->
  run cfg BS ev f l
  = (Ok 0,
     with_stdout [StatusLine BELOW p]
       (with_state_file (Holds (latched_state false f))
          (with_log_file
             (logged l (now ev) (Some p) BELOW (py "Email error: " ++ exn_msg e))
             (with_state_var (latched_state false f)
                (with_alert_calls [p] (fetched_world cfg ev (start f l))))))).
Proof.
  intros Hlb Hs Hlt Hsend. apply last_below_get in Hlb as (flag & Hflag & Hb).
  exact (main_below_failed (start f l) flag p e Hflag Hb Hs Hlt Hsend).
Qed.

Lemma run_below_latched (f : file) (l : option (list log_line)) (p : float) :
  last_below f = Some true ->
  sighting cfg BS ev = Ok (Some p) ->
  flt p (THRESHOLD cfg) = true ->
  run cfg BS ev f l
  = (Ok 0,
     with_stdout [StatusLine BELOW p]
       (with_state_file (Holds (loaded f))
          (with_log_file (logged l (now ev) (Some p) BELOW [])
             (fetched_world cfg ev (start f l))))).
Proof.
  intros Hlb Hs Hlt. apply last_below_get in Hlb as (flag & Hflag & Hb).
  exact (main_below_latched (start f l) flag p Hflag Hb Hs Hlt).
Qed.

Lemma run_above (f : file) (l : option (list log_line)) (b : bool) (p : float) :
  last_below f = Some b ->
  sighting cfg BS ev = Ok (Some p) ->
  flt p (THRESHOLD cfg) = false ->
  run cfg BS ev f l
  = (Ok 0,
     with_stdout [StatusLine ABOVE p]
       (with_state_file (Holds (latched_state false f))
          (with_log_file
             (logged l (now ev) (Some p) ABOVE
                     (if b then py "Latch reset (price went above threshold)" else []))
             (with_state_var (latched_state false f)
                (fetched_world cfg ev (start f l)))))).
Proof.
  intros Hlb Hs Hlt. apply last_below_get in Hlb as (flag & Hflag & <-).
  exact (main_above (start f l) flag p Hflag Hs Hlt).
Qed.

Lemma run_no_get (f : file) (l : option (list log_line)) :
  last_below f = None ->
  exists e, run cfg BS ev f l = (Raise e, with_state_var (loaded f) (start f l)).
Proof.
  intros Hlb. apply last_below_no_get in Hlb as (e & He).
  exists e. exact (main_no_get (start f l) e He).
Qed.

(** Setting the flag on a state that has [get] gives a state that answers
    the flag. *)
Lemma last_below_set (f : file) (b0 b : bool) :
  last_below f = Some b0 -> last_below (Holds (latched_state b f)) = Some b.
Proof.
  intros H. apply last_below_get in H as (flag & Hflag & _).
  exact (last_below_latched f flag b Hflag).
Qed.

End Run.

(** ** The latch *)

(** C1. Two consecutive runs that start with the latch clear, both see a
    price below the threshold, the alert of the first being sent
    successfully: the first run sends one alert, notes "Alert sent" and
    writes [last_below = true]; the second run does not call the notifier,
    sends nothing and writes the state back as it found it; one alert in
    total. *)
Theorem latch_idempotence (cfg : config) (BS : str -> node) (ev1 ev2 : env)
        (f : file) (l : option (list log_line)) (p1 p2 : float) :
  last_below f = Some false ->
  sighting cfg BS ev1 = Ok (Some p1) -> flt p1 (THRESHOLD cfg) = true ->
  sighting cfg BS ev2 = Ok (Some p2) -> flt p2 (THRESHOLD cfg) = true ->
  alert_outcome cfg ev1 = Ok tt ->
  let w1 := snd (run cfg BS ev1 f l) in
  let w2 := snd (run cfg BS ev2 (state_file w1) (log_file w1)) in
  outbox w1 = [alert_message cfg p1]
  /\ last_row w1 = Some {| timestamp := now ev1; price := Some p1;
                           obs_status := BELOW; note := py "Alert sent" |}
  /\ last_below (state_file w1) = Some true
  /\ alert_calls w2 = []
  /\ outbox w2 = []
  /\ last_row w2 = Some {| timestamp := now ev2; price := Some p2;
                           obs_status := BELOW; note := [] |}
  /\ state_file w2 = state_file w1
  /\ length (outbox w1 ++ outbox w2) = 1%nat.
Proof.
  intros Hlb Hs1 Hlt1 Hs2 Hlt2 Hsend w1 w2.
  assert (Hset := last_below_set f false true Hlb).
  assert (w1 = snd (run cfg BS ev1 f l)) as Hw1 by reflexivity.
  rewrite (run_below_sent cfg BS ev1 f l p1 Hlb Hs1 Hlt1 Hsend) in Hw1.
  cbn [snd] in Hw1.
  assert (w2 = snd (run cfg BS ev2 (state_file w1) (log_file w1))) as Hw2 by reflexivity.
  rewrite Hw1 in Hw2. cbn [state_file log_file with_stdout with_state_file with_log_file] in Hw2.
  rewrite (run_below_latched cfg BS ev2 _ _ p2 Hset Hs2 Hlt2) in Hw2.
  cbn [snd] in Hw2. clearbody w1 w2. subst w1 w2.
  repeat split; try reflexivity.
  - eapply last_row_logged. reflexivity.
  - exact Hset.
  - eapply last_row_logged. reflexivity.
Qed.

Lemma latch_idempotence_witness :
  let w1 := snd (run sample_cfg parse_199 sample_env Absent None) in
  let w2 := snd (run sample_cfg parse_199 flaky_env (state_file w1) (log_file w1)) in
  length (outbox w1 ++ outbox w2) = 1%nat.
Proof.
  intros w1 w2.
  apply (latch_idempotence sample_cfg parse_199 sample_env flaky_env Absent None
                           f_199 f_199);
    vm_compute; reflexivity.
Defined.

(** C2. A run that starts with the latch clear, sees a price below the
    threshold and whose alert sending raises: [main] still returns 0 and
    nothing goes to standard error (the exception is caught where the alert
    is sent), the row of the run has status BELOW and the note
    "Email error: " followed by the message of the exception, nothing is
    delivered, the state written back has [last_below = false], and the
    next run that sees a price below the threshold calls the notifier
    again. *)
Theorem mail_failure_does_not_latch (cfg : config) (BS : str -> node) (ev : env)
        (f : file) (l : option (list log_line)) (p : float) (e : exn) :
  last_below f = Some false ->
  sighting cfg BS ev = Ok (Some p) ->
  flt p (THRESHOLD cfg) = true ->
  alert_outcome cfg ev = Raise e ->
  let w' := snd (run cfg BS ev f l) in
  fst (run cfg BS ev f l) = Ok 0
  /\ stderr w' = []
  /\ last_row w' = Some {| timestamp := now ev; price := Some p; obs_status := BELOW;
                           note := py "Email error: " ++ exn_msg e |}
  /\ alert_calls w' = [p]
  /\ outbox w' = []
  /\ last_below (state_file w') = Some false
  /\ forall (BS2 : str -> node) (ev2 : env) (p2 : float),
       sighting cfg BS2 ev2 = Ok (Some p2) ->
       flt p2 (THRESHOLD cfg) = true ->
       alert_calls (snd (run cfg BS2 ev2 (state_file w') (log_file w'))) = [p2].
Proof.
  intros Hlb Hs Hlt Hsend w'.
  assert (Hclear := last_below_set f false false Hlb).
  assert (w' = snd (run cfg BS ev f l)) as Hw by reflexivity.
  rewrite (run_below_failed cfg BS ev f l p e Hlb Hs Hlt Hsend) in *.
  cbn [snd fst] in *. clearbody w'. subst w'.
  repeat split; try reflexivity.
  - eapply last_row_logged. reflexivity.
  - exact Hclear.
  - intros BS2 ev2 p2 Hs2 Hlt2.
    cbn [state_file log_file with_stdout with_state_file with_log_file].
    destruct (alert_outcome cfg ev2) as [[]|e2] eqn:Hsend2.
    + now rewrite (run_below_sent cfg BS2 ev2 _ _ p2 Hclear Hs2 Hlt2 Hsend2).
    + now rewrite (run_below_failed cfg BS2 ev2 _ _ p2 e2 Hclear Hs2 Hlt2 Hsend2).
Qed.

Lemma mail_failure_does_not_latch_witness :
  last_below (state_file (snd (run sample_cfg parse_199 smtp_down_env Absent None)))
  = Some false.
Proof.
  apply (mail_failure_does_not_latch sample_cfg parse_199 smtp_down_env Absent None f_199
           (Exn (LibraryError (py "SMTPAuthenticationError"))
                (py "(535, b'5.7.8 Username and Password not accepted')")));
    vm_compute; reflexivity.
Defined.

(** C3, as the script has it.  A run that starts with the latch set and
    sees a price that is not below the threshold writes [last_below = false]
    and logs the note "Latch reset (price went above threshold)"; a run that
    starts with the latch clear and sees such a price writes
    [last_below = false] and logs an empty note.  Neither calls the
    notifier. *)
Theorem latch_reset (cfg : config) (BS : str -> node) (ev : env)
        (f : file) (l : option (list log_line)) (p : float) (b : bool) :
  last_below f = Some b ->
  sighting cfg BS ev = Ok (Some p) ->
  flt p (THRESHOLD cfg) = false ->
  let w' := snd (run cfg BS ev f l) in
  last_below (state_file w') = Some false
  /\ last_row w'
     = Some {| timestamp := now ev; price := Some p; obs_status := ABOVE;
               note := if b then py "Latch reset (price went above threshold)" else [] |}
  /\ alert_calls w' = []
  /\ outbox w' = [].
Proof.
  intros Hlb Hs Hlt w'.
  assert (Hclear := last_below_set f b false Hlb).
  assert (w' = snd (run cfg BS ev f l)) as Hw by reflexivity.
  rewrite (run_above cfg BS ev f l b p Hlb Hs Hlt) in Hw.
  cbn [snd] in Hw. clearbody w'. subst w'.
  repeat split; try reflexivity.
  - exact Hclear.
  - eapply last_row_logged. reflexivity.
Qed.

Lemma latch_reset_witness :
  last_below
    (state_file (snd (run sample_cfg parse_250 sample_env
                          (Holds (JDict {[ py "last_below" := JBool true ]})) None)))
  = Some false.
Proof.
  apply (latch_reset sample_cfg parse_250 sample_env
                     (Holds (JDict {[ py "last_below" := JBool true ]})) None f_250 true);
    vm_compute; reflexivity.
Defined.

(** The note of C3 as the claim words it is not what the script logs: with
    the latch set and a price of 250.00 against a threshold of 230.00 the
    logged note is not "Latch reset". *)
Lemma latch_reset_note_counterexample :
  let f := Holds (JDict {[ py "last_below" := JBool true ]}) in
  let w' := snd (run sample_cfg parse_250 sample_env f None) in
  last_below f = Some true
  /\ sighting sample_cfg parse_250 sample_env = Ok (Some f_250)
  /\ flt f_250 (THRESHOLD sample_cfg) = false
  /\ (note <$> last_row w') = Some (py "Latch reset (price went above threshold)")
  /\ (note <$> last_row w') <> Some (py "Latch reset").
Proof.
  cbv zeta. repeat apply conj; try (vm_compute; reflexivity).
  vm_compute. discriminate.
Qed.



(** ** The state file *)

(** C8. When the state file is missing, cannot be opened or read, or holds
    text that [json.load] rejects, [load_state] returns
    [{"last_below": false}] without raising and without touching the world,
    the latch reads as clear, and the whole run is the run that a state file
    holding [{"last_below": false}] gives. *)
Theorem state_file_fallback (cfg : config) (BS : str -> node) (ev : env)
        (f : file) (l : option (list log_line)) :
  f = Absent \/ f = Unreadable \/ f = Unparseable ->
  load_state (start f l) = (Ok default_state, start f l)
  /\ last_below f = Some false
  /\ run cfg BS ev f l = run cfg BS ev (Holds default_state) l.
Proof.
  intros Hf.
  assert (last_below f = Some false) as Hlb by (destruct Hf as [->|[->| ->]]; reflexivity).
  assert (last_below (Holds default_state) = Some false) as Hlb0 by reflexivity.
  split; [|split; [exact Hlb|]].
  - rewrite load_state_loaded. destruct Hf as [->|[->| ->]]; reflexivity.
  - destruct (sighting cfg BS ev) as [[p|]|e] eqn:Hs.
    + destruct (flt p (THRESHOLD cfg)) eqn:Hlt.
      * destruct (alert_outcome cfg ev) as [[]|e] eqn:Hsend.
        -- rewrite (run_below_sent cfg BS ev f l p Hlb Hs Hlt Hsend),
             (run_below_sent cfg BS ev _ l p Hlb0 Hs Hlt Hsend).
           destruct Hf as [->|[->| ->]]; reflexivity.
        -- rewrite (run_below_failed cfg BS ev f l p e Hlb Hs Hlt Hsend),
             (run_below_failed cfg BS ev _ l p e Hlb0 Hs Hlt Hsend).
           destruct Hf as [->|[->| ->]]; reflexivity.
      * rewrite (run_above cfg BS ev f l false p Hlb Hs Hlt),
          (run_above cfg BS ev _ l false p Hlb0 Hs Hlt).
        destruct Hf as [->|[->| ->]]; reflexivity.
    + rewrite (run_no_match cfg BS ev f l false Hlb Hs),
        (run_no_match cfg BS ev _ l false Hlb0 Hs).
      destruct Hf as [->|[->| ->]]; reflexivity.
    + rewrite (run_error cfg BS ev f l false e Hlb Hs),
        (run_error cfg BS ev _ l false e Hlb0 Hs).
      destruct Hf as [->|[->| ->]]; reflexivity.
Qed.

Lemma state_file_fallback_witness :
  run sample_cfg parse_199 sample_env Unparseable None
  = run sample_cfg parse_199 sample_env (Holds default_state) None.
Proof.
  apply (state_file_fallback sample_cfg parse_199 sample_env Unparseable None).
  right. right. reflexivity.
Defined.

(** ** The exit status *)

(** With writes that succeed and a parser that does not raise, the script
    with fallible writes is the script of the definitions above. *)
Lemma main_io_reliable (cfg : config) (BS : str -> node) (ev : env) (w : world) :
  main_io cfg (fun html => Ok (BS html)) ev reliable w = main cfg BS ev w.
Proof. reflexivity. Qed.

Lemma last_row_snoc (w : world) (rows : list log_line) (o : observation) :
  log_file w = Some (rows ++ [Row o]) -> last_row w = Some o.
Proof. intros H. unfold last_row. now rewrite H, last_snoc. Qed.

(** One path through [main_io], once every answer is known. *)
Ltac io_leaf :=
  match goal with H : ?X = _ |- context [fst ?X] => cbn -[py] in H; subst X end;
  match goal with l : option (list log_line) |- _ => destruct l end;
  cbn -[py last_row];
  repeat match goal with
         | |- _ /\ _ => split
         | |- _ <-> _ => split
         | |- forall _, _ => intro
         | H : _ \/ _ |- _ => destruct H
         | H : _ /\ _ |- _ => destruct H
         | H : Some _ = Some _ |- _ => injection H as <-
         | H : Some _ = None |- _ => discriminate H
         | H : None = Some _ |- _ => discriminate H
         | H : Ok _ = Raise _ |- _ => discriminate H
         | H : Raise _ = Ok _ |- _ => discriminate H
         | H : 1 = 0 |- _ => discriminate H
         | H : LogFails _ = LogDone |- _ => discriminate H
         | H : LogCut _ _ = LogDone |- _ => discriminate H
         | H : OpenFails _ = SaveDone |- _ => discriminate H
         | H : DumpFails _ = SaveDone |- _ => discriminate H
         | |- exists _, _ => eexists
         | |- last_row _ = Some _ =>
             first [reflexivity | eapply last_row_snoc; reflexivity]
         | |- _ <> _ => discriminate
         | |- None = None \/ _ => left; reflexivity
         | |- _ \/ (LogDone = LogDone /\ SaveDone = SaveDone) => right; split; reflexivity
         | |- _ = _ => reflexivity
         end.

(** C9, as the script has it, with writes and a parser that can raise.
    Take a run whose loaded state is a dictionary (so that [state.get],
    which stands before the [try] block, does not raise).  The process ends
    with status 0 exactly when the [try] block completes or both writes of
    the [except] handler ([log_row] and [save_state]) succeed; and then
    [main] returns 0.  An exception that leaves the [try] block (of the
    fetch, of the parser, of [float], of the write of the log or of the
    state) is, when the handler's [log_row] succeeds, logged as the last
    row, an ERROR row whose note is its message, and reported on standard
    error.  A run whose [try] block completes reports nothing on standard
    error and its last row is not an ERROR row. *)
Theorem exit_status_zero (cfg : config) (parser : str -> result node) (ev : env)
        (dk : disk) (f : file) (l : option (list log_line)) (b : bool) :
  last_below f = Some b ->
  let r := fst (run_io cfg parser ev dk f l) in
  let w' := snd (run_io cfg parser ev dk f l) in
  let completes := try_error cfg parser ev dk = None in
  let handler_writes := log_handler dk = LogDone /\ save_handler dk = SaveDone in
  (completes \/ handler_writes -> r = Ok 0)
  /\ (exit_code r = 0 <-> completes \/ handler_writes)
  /\ (forall e, try_error cfg parser ev dk = Some e -> log_handler dk = LogDone ->
        last_row w' = Some {| timestamp := now ev; price := None; obs_status := ERROR;
                              note := exn_msg e |}
        /\ stderr w' = [py "ERROR: " ++ exn_msg e])
  /\ (completes ->
        stderr w' = []
        /\ exists o, last_row w' = Some o /\ obs_status o <> ERROR).
Proof.
  intros Hlb r w' completes handler_writes. subst completes handler_writes.
  set (X := run_io cfg parser ev dk f l) in *. subst r w'.
  assert (X = run_io cfg parser ev dk f l) as HX by reflexivity. clearbody X.
  apply last_below_get in Hlb as (flag & Hflag & Hb).
  unfold try_error, sighting_io, extract_plate_price_io.
  unfold run_io, main_io, extract_plate_price_io in HX.
  unfold bind at 1 in HX. rewrite load_state_loaded in HX.
  unfold bind at 1, bind_state at 1, modify at 1 in HX.
  unfold bind at 1, lift at 1 in HX.
  change (loaded (state_file (start f l))) with (loaded f) in HX. rewrite Hflag in HX.
  unfold try_except at 1 in HX. unfold bind at 1 in HX. rewrite fetch_run in HX.
  rewrite Hb in HX.
  destruct (fetched cfg ev) as [html|e0]; cbn [bind_result];
    [|destruct (log_handler dk), (save_handler dk); io_leaf].
  unfold bind at 1, lift at 1 in HX.
  destruct (parser html) as [soup|e1]; cbn [bind_result] in *;
    [|destruct (log_handler dk), (save_handler dk); io_leaf].
  destruct (extract_from_soup soup) as [[p|]|e2];
    [| |destruct (log_handler dk), (save_handler dk); io_leaf].
  - destruct (flt p (THRESHOLD cfg)); destruct b; cbn [status_eqb andb negb] in HX.
    + destruct (log_try dk), (save_try dk), (log_handler dk), (save_handler dk); io_leaf.
    + unfold bind at 1, try_except at 1, bind at 1 in HX. rewrite send_run in HX.
      destruct (alert_outcome cfg ev) as [[]|e3];
        destruct (log_try dk), (save_try dk), (log_handler dk), (save_handler dk); io_leaf.
    + destruct (log_try dk), (save_try dk), (log_handler dk), (save_handler dk); io_leaf.
    + destruct (log_try dk), (save_try dk), (log_handler dk), (save_handler dk); io_leaf.
  - destruct (log_try dk), (save_try dk), (log_handler dk), (save_handler dk); io_leaf.
Qed.

(** The state cannot be written inside the [try] block; the handler logs
    the error, writes the state, and the process ends with status 0. *)
Lemma exit_status_zero_witness :
  last_below Absent = Some false
  /\ exit_code (fst (run_io sample_cfg (fun html => Ok (parse_199 html)) sample_env
                            busy_disk Absent None)) = 0.
Proof.
  split; [reflexivity|].
  destruct (exit_status_zero sample_cfg (fun html => Ok (parse_199 html)) sample_env
              busy_disk Absent None false eq_refl) as (_ & Hexit & _).
  apply Hexit. right. split; reflexivity.
Defined.

(** C9 as the claim words it fails, in two ways.  A state file that holds
    the JSON array [[]] is loaded as it is, [state.get] raises before the
    [try] block, the process ends with status 1, and nothing is logged or
    reported.  And with a dictionary for a state: when [LOG_PATH] has no
    directory part, [os.makedirs("")] raises in [log_row] inside the [try]
    block and again in the [except] handler, from which it leaves [main]:
    the process ends with status 1, no row is logged, and the handler's
    line [ERROR: ...] is not printed. *)
Lemma always_success_exit_counterexample :
  let ok := fun html => Ok (parse_199 html) in
  let r := run_io sample_cfg ok sample_env reliable (Holds (JList [])) None in
  let r' := run_io sample_cfg ok sample_env no_log_dir_disk Absent None in
  (exit_code (fst r) = 1
   /\ exit_code (fst r) <> 0
   /\ fst r = Raise (Exn AttributeError (py "'list' object has no attribute 'get'"))
   /\ log_file (snd r) = None
   /\ stderr (snd r) = [])
  /\ (last_below Absent = Some false
      /\ try_error sample_cfg ok sample_env no_log_dir_disk
         = Some (Exn (LibraryError (py "FileNotFoundError"))
                     (py "[Errno 2] No such file or directory: ''"))
      /\ exit_code (fst r') = 1
      /\ exit_code (fst r') <> 0
      /\ fst r' = Raise (Exn (LibraryError (py "FileNotFoundError"))
                             (py "[Errno 2] No such file or directory: ''"))
      /\ log_file (snd r') = None
      /\ stderr (snd r') = []).
Proof.
  cbv zeta. repeat apply conj; try (vm_compute; reflexivity).
  - vm_compute. discriminate.
  - vm_compute. discriminate.
Qed.

(** ** The threshold *)

(** C10. A run that extracts a price logs BELOW exactly when the price is
    strictly less than the threshold and ABOVE otherwise; a price equal to
    the threshold is logged ABOVE, the notifier is not called, and the state
    written back has [last_below = false]. *)
Theorem threshold_boundary (cfg : config) (BS : str -> node) (ev : env)
        (f : file) (l : option (list log_line)) (p : float) (b : bool) :
  sighting cfg BS ev = Ok (Some p) ->
  last_below f = Some b ->
  let w' := snd (run cfg BS ev f l) in
  ((obs_status <$> last_row w') = Some BELOW <-> flt p (THRESHOLD cfg) = true)
  /\ ((obs_status <$> last_row w') = Some ABOVE <-> flt p (THRESHOLD cfg) = false)
  /\ (feq p (THRESHOLD cfg) = true ->
      (obs_status <$> last_row w') = Some ABOVE
      /\ alert_calls w' = []
      /\ outbox w' = []
      /\ last_below (state_file w') = Some false).
Proof.
  intros Hs Hlb w'.
  assert (Hclear := last_below_set f b false Hlb).
  assert (w' = snd (run cfg BS ev f l)) as Hw by reflexivity. clearbody w'.
  destruct (flt p (THRESHOLD cfg)) eqn:Hlt.
  - assert ((obs_status <$> last_row w') = Some BELOW) as Hst.
    { destruct b.
      - rewrite (run_below_latched cfg BS ev f l p Hlb Hs Hlt) in Hw. subst w'.
        cbn [snd]. erewrite last_row_logged; reflexivity.
      - destruct (alert_outcome cfg ev) as [[]|e] eqn:Hsend.
        + rewrite (run_below_sent cfg BS ev f l p Hlb Hs Hlt Hsend) in Hw. subst w'.
          cbn [snd]. erewrite last_row_logged; reflexivity.
        + rewrite (run_below_failed cfg BS ev f l p e Hlb Hs Hlt Hsend) in Hw. subst w'.
          cbn [snd]. erewrite last_row_logged; reflexivity. }
    rewrite Hst. split; [split; congruence|]. split; [split; congruence|].
    intros Heq. apply feq_not_flt in Heq. congruence.
  - rewrite (run_above cfg BS ev f l b p Hlb Hs Hlt) in Hw. subst w'. cbn [snd].
    erewrite last_row_logged by reflexivity. cbn [fmap option_fmap option_map obs_status].
    split; [split; congruence|]. split; [split; congruence|].
    intros _. repeat apply conj; try reflexivity. exact Hclear.
Qed.

Lemma threshold_boundary_witness :
  feq f_230 (THRESHOLD sample_cfg) = true
  /\ (obs_status
        <$> last_row (snd (run sample_cfg parse_230 sample_env
                               (Holds (JDict {[ py "last_below" := JBool true ]})) None)))
     = Some ABOVE.
Proof.
  split; [vm_compute; reflexivity|].
  apply (threshold_boundary sample_cfg parse_230 sample_env
           (Holds (JDict {[ py "last_below" := JBool true ]})) None f_230 true);
    vm_compute; reflexivity.
Defined.

(** * Further properties *)

(** ** One run, in full *)

(** Every run whose loaded state has [get] is one of six runs. *)
Lemma run_cases (cfg : config) (BS : str -> node) (ev : env)
      (f : file) (l : option (list log_line)) (b : bool) (P : result Z * world -> Prop) :
  last_below f = Some b ->
  (forall e, sighting cfg BS ev = Raise e ->
     P (Ok 0,
        with_state_file (Holds (loaded f))
          (with_stderr [py "ERROR: " ++ exn_msg e]
             (with_log_file (logged l (now ev) None ERROR (exn_msg e))
                (fetched_world cfg ev (start f l)))))) ->
  (sighting cfg BS ev = Ok None ->
     P (Ok 0,
        with_state_file (Holds (loaded f))
          (with_stdout [Text (py "NO_MATCH")]
             (with_log_file
                (logged l (now ev) None NO_MATCH (py "Nie znaleziono wiersza Płyta/ceny"))
                (fetched_world cfg ev (start f l)))))) ->
  (forall p, b = false -> sighting cfg BS ev = Ok (Some p) ->
     flt p (THRESHOLD cfg) = true -> alert_outcome cfg ev = Ok tt ->
     P (Ok 0,
        with_stdout [StatusLine BELOW p]
          (with_state_file (Holds (latched_state true f))
             (with_log_file (logged l (now ev) (Some p) BELOW (py "Alert sent"))
                (with_state_var (latched_state true f)
                   (with_outbox [alert_message cfg p]
                      (with_alert_calls [p] (fetched_world cfg ev (start f l))))))))) ->
  (forall p e, b = false -> sighting cfg BS ev = Ok (Some p) ->
     flt p (THRESHOLD cfg) = true -> alert_outcome cfg ev = Raise e ->
     P (Ok 0,
        with_stdout [StatusLine BELOW p]
          (with_state_file (Holds (latched_state false f))
             (with_log_file
                (logged l (now ev) (Some p) BELOW (py "Email error: " ++ exn_msg e))
                (with_state_var (latched_state false f)
                   (with_alert_calls [p] (fetched_world cfg ev (start f l)))))))) ->
  (forall p, b = true -> sighting cfg BS ev = Ok (Some p) ->
     flt p (THRESHOLD cfg) = true ->
     P (Ok 0,
        with_stdout [StatusLine BELOW p]
          (with_state_file (Holds (loaded f))
             (with_log_file (logged l (now ev) (Some p) BELOW [])
                (fetched_world cfg ev (start f l)))))) ->
  (forall p, sighting cfg BS ev = Ok (Some p) ->
     flt p (THRESHOLD cfg) = false ->
     P (Ok 0,
        with_stdout [StatusLine ABOVE p]
          (with_state_file (Holds (latched_state false f))
             (with_log_file
                (logged l (now ev) (Some p) ABOVE
                        (if b then py "Latch reset (price went above threshold)" else []))
                (with_state_var (latched_state false f)
                   (fetched_world cfg ev (start f l))))))) ->
  P (run cfg BS ev f l).
Proof.
  intros Hlb He Hn Hs Hf Hl Ha.
  destruct (sighting cfg BS ev) as [[p|]|e] eqn:Hsee.
  - destruct (flt p (THRESHOLD cfg)) eqn:Hlt.
    + destruct b.
      * rewrite (run_below_latched cfg BS ev f l p Hlb Hsee Hlt). now apply Hl.
      * destruct (alert_outcome cfg ev) as [[]|e] eqn:Hsend.
        -- rewrite (run_below_sent cfg BS ev f l p Hlb Hsee Hlt Hsend). now apply Hs.
        -- rewrite (run_below_failed cfg BS ev f l p e Hlb Hsee Hlt Hsend). now apply Hf.
    + rewrite (run_above cfg BS ev f l b p Hlb Hsee Hlt). now apply Ha.
  - rewrite (run_no_match cfg BS ev f l b Hlb Hsee). now apply Hn.
  - rewrite (run_error cfg BS ev f l b e Hlb Hsee). now apply He.
Qed.

Lemma latch_after_run (cfg : config) (BS : str -> node) (ev : env)
        (f : file) (l : option (list log_line)) (b : bool) :
  last_below f = Some b ->
  last_below (state_file (snd (run cfg BS ev f l)))
  = Some match sighting cfg BS ev with
         | Ok (Some p) =>
             if flt p (THRESHOLD cfg)
             then b || match alert_outcome cfg ev with
                       | Ok _ => true
                       | Raise _ => false
                       end
             else false
         | _ => b
         end.
Proof.
  intros Hlb.
  apply (run_cases cfg BS ev f l b
           (fun rw => last_below (state_file (snd rw)) = _) Hlb).
  - intros e ->. exact Hlb.
  - intros ->. exact Hlb.
  - intros p -> -> -> ->. cbn [snd state_file with_stdout with_state_file].
    exact (last_below_set f false true Hlb).
  - intros p e -> -> -> ->. cbn [snd state_file with_stdout with_state_file].
    exact (last_below_set f false false Hlb).
  - intros p -> -> ->. exact Hlb.
  - intros p -> ->. cbn [snd state_file with_stdout with_state_file].
    exact (last_below_set f b false Hlb).
Qed.

(** X1. The latch after a run, as a function of the latch before it and of
    what the run saw: an exception or "no match" keeps it; a price that is
    not below the threshold clears it; a price below the threshold sets it
    when it was set already or when the alert went out, and leaves it clear
    when sending the alert failed. *)
Theorem latch_transition (cfg : config) (BS : str -> node) (ev : env)
        (f : file) (l : option (list log_line)) (b : bool) :
  last_below f = Some b ->
  last_below (state_file (snd (run cfg BS ev f l)))
  = Some match sighting cfg BS ev with
         | Ok (Some p) =>
             if flt p (THRESHOLD cfg)
             then b || match alert_outcome cfg ev with
                       | Ok _ => true
                       | Raise _ => false
                       end
             else false
         | _ => b
         end.
Proof. exact (latch_after_run cfg BS ev f l b). Qed.

Lemma latch_transition_witness :
  last_below (state_file (snd (run sample_cfg parse_199 smtp_down_env Absent None)))
  = Some false.
Proof.
  exact (latch_transition sample_cfg parse_199 smtp_down_env Absent None false eq_refl).
Defined.

Lemma notifier_calls (cfg : config) (BS : str -> node) (ev : env)
        (f : file) (l : option (list log_line)) :
  let w' := snd (run cfg BS ev f l) in
  alert_calls w'
  = match last_below f, sighting cfg BS ev with
    | Some false, Ok (Some p) => if flt p (THRESHOLD cfg) then [p] else []
    | _, _ => []
    end
  /\ outbox w'
     = match last_below f, sighting cfg BS ev, alert_outcome cfg ev with
       | Some false, Ok (Some p), Ok _ =>
           if flt p (THRESHOLD cfg)
           then [ {| mail_subject := py "ALERT: COMA „Płyta” < 230 zł (alebilet)";
                     mail_from := FROM_ADDR cfg; mail_to := EMAIL_TO cfg;
                     mail_price := p; mail_threshold := THRESHOLD cfg;
                     mail_url := URL cfg |} ]
           else []
       | _, _, _ => []
       end.
Proof.
  intros w'. subst w'.
  destruct (last_below f) as [b|] eqn:Hlb.
  - pattern (run cfg BS ev f l). apply (run_cases cfg BS ev f l b); [exact Hlb|..].
    + intros e Hs. rewrite Hs. destruct b; split; reflexivity.
    + intros Hs. rewrite Hs. destruct b; split; reflexivity.
    + intros p Hb Hs Hlt Hsend. subst b. rewrite Hs, Hlt, Hsend. split; reflexivity.
    + intros p e Hb Hs Hlt Hsend. subst b. rewrite Hs, Hlt, Hsend. split; reflexivity.
    + intros p Hb Hs Hlt. subst b. split; reflexivity.
    + intros p Hs Hlt. rewrite Hs, Hlt. destruct b; split; try reflexivity.
      destruct (alert_outcome cfg ev); reflexivity.
  - destruct (run_no_get cfg BS ev f l Hlb) as (e & ->). split; reflexivity.
Qed.

(** X2. The notifier is called in one situation only: the latch is clear
    and the run sees a price below the threshold; it is then called once,
    with that price.  A message is delivered only if that call returns, and
    it carries the price seen and the configured threshold, page and
    recipient.  On "no match", on an exception, on a price that is not below
    the threshold, with the latch set, or with a state that has no [get],
    nothing is sent. *)
Theorem notifier_discipline (cfg : config) (BS : str -> node) (ev : env)
        (f : file) (l : option (list log_line)) :
  let w' := snd (run cfg BS ev f l) in
  alert_calls w'
  = match last_below f, sighting cfg BS ev with
    | Some false, Ok (Some p) => if flt p (THRESHOLD cfg) then [p] else []
    | _, _ => []
    end
  /\ outbox w'
     = match last_below f, sighting cfg BS ev, alert_outcome cfg ev with
       | Some false, Ok (Some p), Ok _ =>
           if flt p (THRESHOLD cfg)
           then [ {| mail_subject := py "ALERT: COMA „Płyta” < 230 zł (alebilet)";
                     mail_from := FROM_ADDR cfg; mail_to := EMAIL_TO cfg;
                     mail_price := p; mail_threshold := THRESHOLD cfg;
                     mail_url := URL cfg |} ]
           else []
       | _, _, _ => []
       end.
Proof. exact (notifier_calls cfg BS ev f l). Qed.

Lemma footprint_of_run (cfg : config) (BS : str -> node) (ev : env)
        (f : file) (l : option (list log_line)) (b : bool) :
  last_below f = Some b ->
  let w' := snd (run cfg BS ev f l) in
  exists o v,
    log_file w' = Some (with_row l o)
    /\ timestamp o = now ev
    /\ (stdout w', stderr w') = console_of o
    /\ (length (stdout w') + length (stderr w') = 1)%nat
    /\ (price o = None <-> obs_status o = NO_MATCH \/ obs_status o = ERROR)
    /\ state_file w' = Holds v
    /\ state_var w' = v.
Proof.
  intros Hlb w'. subst w'.
  apply (run_cases cfg BS ev f l b
           (fun rw => exists o v,
                log_file (snd rw) = Some (with_row l o)
                /\ timestamp o = now ev
                /\ (stdout (snd rw), stderr (snd rw)) = console_of o
                /\ (length (stdout (snd rw)) + length (stderr (snd rw)) = 1)%nat
                /\ (price o = None <-> obs_status o = NO_MATCH \/ obs_status o = ERROR)
                /\ state_file (snd rw) = Holds v
                /\ state_var (snd rw) = v) Hlb).
  - intros e _. eexists {| timestamp := _; price := _; obs_status := _; note := _ |}, _.
    repeat apply conj; try reflexivity; cbn; auto.
  - intros _. eexists {| timestamp := _; price := _; obs_status := _; note := _ |}, _.
    repeat apply conj; try reflexivity; cbn; auto.
  - intros p _ _ _ _. eexists {| timestamp := _; price := _; obs_status := _; note := _ |}, _.
    repeat apply conj; try reflexivity; cbn; [discriminate | intros [|]; discriminate].
  - intros p e _ _ _ _.
    eexists {| timestamp := _; price := _; obs_status := _; note := _ |}, _.
    repeat apply conj; try reflexivity; cbn; [discriminate | intros [|]; discriminate].
  - intros p _ _ _. eexists {| timestamp := _; price := _; obs_status := _; note := _ |}, _.
    repeat apply conj; try reflexivity; cbn; [discriminate | intros [|]; discriminate].
  - intros p _ _. eexists {| timestamp := _; price := _; obs_status := _; note := _ |}, _.
    repeat apply conj; try reflexivity; cbn; [discriminate | intros [|]; discriminate].
Qed.

(** X3. A run whose loaded state has [get] returns 0, appends exactly one
    row to the log and leaves the rows that were there as they were (the
    header comes first when there was no log file), stamps the row with the
    clock of the run, prints exactly the line that goes with the row
    (standard error for ERROR, standard output otherwise, never both), and
    writes the state file. *)
Theorem run_footprint (cfg : config) (BS : str -> node) (ev : env)
        (f : file) (l : option (list log_line)) (b : bool) :
  last_below f = Some b ->
  let w' := snd (run cfg BS ev f l) in
  exists o v,
    log_file w' = Some (with_row l o)
    /\ timestamp o = now ev
    /\ (stdout w', stderr w') = console_of o
    /\ (length (stdout w') + length (stderr w') = 1)%nat
    /\ (price o = None <-> obs_status o = NO_MATCH \/ obs_status o = ERROR)
    /\ state_file w' = Holds v
    /\ state_var w' = v.
Proof. exact (footprint_of_run cfg BS ev f l b). Qed.

Lemma run_footprint_witness :
  exists o v,
    log_file (snd (run sample_cfg parse_other blocked_env Absent None))
    = Some (with_row None o)
    /\ timestamp o = now blocked_env
    /\ (stdout (snd (run sample_cfg parse_other blocked_env Absent None)),
        stderr (snd (run sample_cfg parse_other blocked_env Absent None)))
       = console_of o
    /\ (length (stdout (snd (run sample_cfg parse_other blocked_env Absent None)))
         + length (stderr (snd (run sample_cfg parse_other blocked_env Absent None)))
         = 1)%nat
    /\ (price o = None <-> obs_status o = NO_MATCH \/ obs_status o = ERROR)
    /\ state_file (snd (run sample_cfg parse_other blocked_env Absent None)) = Holds v
    /\ state_var (snd (run sample_cfg parse_other blocked_env Absent None)) = v.
Proof.
  exact (run_footprint sample_cfg parse_other blocked_env Absent None false eq_refl).
Defined.

(** X4. A run touches one key of the state dictionary at most.  When the
    loaded state is a dictionary [d], the state written back is [d] itself
    or [d] with "last_below" bound to a JSON boolean: every other key keeps
    its value, and a dictionary without "last_below" reads as a clear
    latch. *)
Theorem state_other_keys_kept (cfg : config) (BS : str -> node) (ev : env)
        (f : file) (l : option (list log_line)) (d : gmap str json) :
  loaded f = JDict d ->
  last_below f = Some (truthy (default (JBool false) (d !! py "last_below")))
  /\ (d !! py "last_below" = None -> last_below f = Some false)
  /\ exists d',
       state_file (snd (run cfg BS ev f l)) = Holds (JDict d')
       /\ (d' = d \/ exists b, d' = <[py "last_below" := JBool b]> d)
       /\ forall k, k <> py "last_below" -> d' !! k = d !! k.
Proof.
  intros Hd.
  assert (last_below f = Some (truthy (default (JBool false) (d !! py "last_below"))))
    as Hlb by (unfold last_below; rewrite Hd; reflexivity).
  split; [exact Hlb|]. split; [intros Hnone; rewrite Hlb, Hnone; reflexivity|].
  assert (forall b, latched_state b f = JDict (<[py "last_below" := JBool b]> d)) as Hset
    by (intros b; unfold latched_state; rewrite Hd; reflexivity).
  pattern (run cfg BS ev f l).
  apply (run_cases cfg BS ev f l _ _ Hlb); intros;
    cbn [snd state_file with_stdout with_state_file with_stderr]; rewrite ?Hset, ?Hd.
  1, 2, 5: exists d; split; [reflexivity | split; [left; reflexivity | reflexivity]].
  all: eexists; split; [reflexivity | split; [right; eexists; reflexivity |]];
    intros k Hk; now rewrite lookup_insert_ne.
Qed.

Lemma state_other_keys_kept_witness :
  exists d',
    state_file
      (snd (run sample_cfg parse_199 sample_env
                (Holds (JDict {[ py "owner" := JStr (py "ops") ]})) None))
    = Holds (JDict d')
    /\ d' !! py "owner" = Some (JStr (py "ops")).
Proof.
  destruct (state_other_keys_kept sample_cfg parse_199 sample_env
              (Holds (JDict {[ py "owner" := JStr (py "ops") ]})) None
              {[ py "owner" := JStr (py "ops") ]} eq_refl)
    as (_ & _ & d' & Hfile & _ & Hkeep).
  exists d'. split; [exact Hfile|].
  rewrite Hkeep; [vm_compute; reflexivity | vm_compute; discriminate].
Defined.

(** X5. A state file that holds JSON other than an object stops the run
    before anything happens: [main] raises the [AttributeError] of
    [state.get], the process ends with status 1, and no request has gone
    out, nothing was slept, logged, printed or mailed, and the state file is
    as it was.  This is the only way a run does not return 0. *)
Theorem non_object_state_aborts (cfg : config) (BS : str -> node) (ev : env)
        (f : file) (l : option (list log_line)) :
  (last_below f = None
   <-> exists v, f = Holds v /\ forall d, v <> JDict d)
  /\ (fst (run cfg BS ev f l) <> Ok 0 <-> last_below f = None)
  /\ (last_below f = None ->
      run cfg BS ev f l
      = (Raise (Exn AttributeError
                    (py "'" ++ type_name (loaded f) ++ py "' object has no attribute 'get'")),
         with_state_var (loaded f) (start f l))
      /\ exit_code (fst (run cfg BS ev f l)) = 1).
Proof.
  assert (last_below f = None -> exists v, f = Holds v /\ forall d, v <> JDict d) as Hshape.
  { destruct f as [| | |v]; try discriminate. intros H. exists v. split; [reflexivity|].
    intros d ->. discriminate. }
  assert (last_below f = None ->
          run cfg BS ev f l
          = (Raise (Exn AttributeError
                        (py "'" ++ type_name (loaded f)
                            ++ py "' object has no attribute 'get'")),
             with_state_var (loaded f) (start f l))) as Hrun.
  { intros Hlb. unfold last_below in Hlb.
    destruct (json_get (loaded f) (py "last_below") (JBool false)) as [|e] eqn:Hget;
      [discriminate|].
    unfold run. rewrite (main_no_get cfg BS ev (start f l) e Hget). f_equal. f_equal.
    unfold json_get in Hget. destruct (loaded f); try discriminate; now injection Hget. }
  split; [|split].
  - split; [exact Hshape|]. intros (v & -> & Hv). unfold last_below. cbn [loaded].
    destruct v; try reflexivity. now destruct (Hv d).
  - split.
    + intros Hne. destruct (last_below f) as [b|] eqn:Hlb; [|reflexivity].
      destruct Hne. pattern (run cfg BS ev f l).
      apply (run_cases cfg BS ev f l b _ Hlb); intros; reflexivity.
    + intros Hlb. rewrite (Hrun Hlb). discriminate.
  - intros Hlb. split; [exact (Hrun Hlb)|]. now rewrite (Hrun Hlb).
Qed.

Lemma non_object_state_aborts_witness :
  exit_code (fst (run sample_cfg parse_199 sample_env (Holds (JStr (py "true"))) None)) = 1.
Proof.
  apply (non_object_state_aborts sample_cfg parse_199 sample_env
           (Holds (JStr (py "true"))) None).
  reflexivity.
Defined.

(** ** Runs in sequence *)

Lemma final_log_cons (l : option (list log_line)) (rw : result Z * world)
      (rws : list (result Z * world)) :
  final_log l (rw :: rws) = final_log (log_file (snd rw)) rws.
Proof.
  unfold final_log. destruct rws as [|rw' rws]; [reflexivity|].
  change (last (rw :: rw' :: rws)) with (last (rw' :: rws)).
  destruct (last (rw' :: rws)) eqn:E; [reflexivity|].
  apply last_None in E. discriminate.
Qed.

(** X6. Runs in sequence never stop working once the state file is usable.
    If the first run finds a state with [get] (a fresh deployment with no
    state file is one such case), then every run of the sequence returns 0
    and leaves a state with [get], and the log grows by exactly one row per
    run, in the order of the runs and stamped with their clocks, after the
    rows (or the new header) that were there. *)
Theorem runs_keep_going (cfg : config) (steps : list ((str -> node) * env))
        (f : file) (l : option (list log_line)) :
  last_below f <> None ->
  Forall (fun rw => fst rw = Ok 0 /\ last_below (state_file (snd rw)) <> None)
         (runs cfg steps f l)
  /\ length (runs cfg steps f l) = length steps
  /\ exists os,
       map timestamp os = map (fun s => now (snd s)) steps
       /\ final_log l (runs cfg steps f l)
          = match steps, l with
            | [], _ => l
            | _ :: _, None => Some (Header :: map Row os)
            | _ :: _, Some rows => Some (rows ++ map Row os)
            end.
Proof.
  revert f l. induction steps as [|[BS ev] rest IH]; intros f l Hlb.
  - cbn. split; [constructor|]. split; [reflexivity|]. exists []. split; reflexivity.
  - destruct (last_below f) as [b|] eqn:Hb; [clear Hlb | congruence].
    cbn [runs].
    pose proof (latch_after_run cfg BS ev f l b Hb) as Hnext.
    destruct (footprint_of_run cfg BS ev f l b Hb) as (o & v & Hlog & Hts & _).
    assert (fst (run cfg BS ev f l) = Ok 0) as Hret
      by (pattern (run cfg BS ev f l);
          apply (run_cases cfg BS ev f l b _ Hb); intros; reflexivity).
    set (rw := run cfg BS ev f l) in *.
    assert (last_below (state_file (snd rw)) <> None) as Hnext' by (rewrite Hnext; discriminate).
    destruct (IH (state_file (snd rw)) (log_file (snd rw)) Hnext') as (Hall & Hlen & os & Hos & Hfin).
    split; [constructor; [split; assumption | exact Hall]|].
    split; [cbn; now rewrite Hlen|].
    exists (o :: os). split; [cbn; now rewrite Hts, Hos|].
    rewrite final_log_cons, Hfin, Hlog.
    destruct rest as [|s rest]; destruct l as [rows|]; cbn; try reflexivity.
    + destruct os; [reflexivity | discriminate].
    + destruct os; [reflexivity | discriminate].
    + now rewrite <- app_assoc.
Qed.

Lemma runs_keep_going_witness :
  length (runs sample_cfg
               [(parse_199, blocked_env); (parse_199, sample_env); (parse_250, flaky_env)]
               Absent None) = 3%nat.
Proof.
  apply (runs_keep_going sample_cfg
           [(parse_199, blocked_env); (parse_199, sample_env); (parse_250, flaky_env)]
           Absent None).
  vm_compute. discriminate.
Defined.

(** While the latch is set and no run logs ABOVE, no run calls the notifier
    and the latch stays set. *)
Lemma latched_runs_send_nothing (cfg : config) (steps : list ((str -> node) * env))
      (f : file) (l : option (list log_line)) :
  last_below f = Some true ->
  Forall (fun rw => (obs_status <$> last_row (snd rw)) <> Some ABOVE) (runs cfg steps f l) ->
  Forall (fun rw => alert_calls (snd rw) = [] /\ outbox (snd rw) = []
                    /\ last_below (state_file (snd rw)) = Some true)
         (runs cfg steps f l).
Proof.
  revert f l. induction steps as [|[BS ev] rest IH]; intros f l Hlb Hno; [constructor|].
  cbn [runs] in *. inversion Hno as [|? ? Hhere Hlater]; subst.
  assert (alert_calls (snd (run cfg BS ev f l)) = []
          /\ outbox (snd (run cfg BS ev f l)) = []
          /\ last_below (state_file (snd (run cfg BS ev f l))) = Some true) as Hrun.
  { revert Hhere. pattern (run cfg BS ev f l).
    apply (run_cases cfg BS ev f l true _ Hlb); intros; try discriminate.
    - repeat apply conj; try reflexivity. exact Hlb.
    - repeat apply conj; try reflexivity. exact Hlb.
    - repeat apply conj; try reflexivity. exact Hlb.
    - exfalso. apply Hhere. cbn [snd]. erewrite last_row_logged; reflexivity. }
  constructor; [exact Hrun|].
  apply IH; [apply Hrun | exact Hlater].
Qed.

(** X7. No second alert for the same drop.  After a run that delivered an
    alert, no later run calls the notifier (so none delivers anything) as
    long as no run in between has logged ABOVE, whatever those runs see:
    prices below the threshold, pages without the row, or failures. *)
Theorem no_realert_until_above (cfg : config) (BS : str -> node) (ev : env)
        (rest : list ((str -> node) * env)) (f : file) (l : option (list log_line)) :
  outbox (snd (run cfg BS ev f l)) <> [] ->
  let w := snd (run cfg BS ev f l) in
  Forall (fun rw => (obs_status <$> last_row (snd rw)) <> Some ABOVE)
         (runs cfg rest (state_file w) (log_file w)) ->
  last_below (state_file w) = Some true
  /\ Forall (fun rw => alert_calls (snd rw) = [] /\ outbox (snd rw) = []
                       /\ last_below (state_file (snd rw)) = Some true)
            (runs cfg rest (state_file w) (log_file w)).
Proof.
  intros Hsent w Hno.
  assert (last_below (state_file w) = Some true) as Hset.
  { subst w. destruct (notifier_calls cfg BS ev f l) as (_ & Hbox).
    rewrite Hbox in Hsent.
    destruct (last_below f) as [[|]|] eqn:Hlb; try congruence.
    rewrite (latch_after_run cfg BS ev f l false Hlb).
    destruct (sighting cfg BS ev) as [[p|]|e]; try congruence.
    destruct (alert_outcome cfg ev); try congruence.
    destruct (flt p (THRESHOLD cfg)); [reflexivity | congruence]. }
  split; [exact Hset|]. now apply latched_runs_send_nothing.
Qed.

Lemma no_realert_until_above_witness :
  let w := snd (run sample_cfg parse_199 sample_env Absent None) in
  Forall (fun rw => alert_calls (snd rw) = [] /\ outbox (snd rw) = []
                    /\ last_below (state_file (snd rw)) = Some true)
         (runs sample_cfg
               [(parse_199, sample_env); (parse_other, sample_env); (parse_199, blocked_env)]
               (state_file w) (log_file w)).
Proof.
  intros w.
  apply (no_realert_until_above sample_cfg parse_199 sample_env
           [(parse_199, sample_env); (parse_other, sample_env); (parse_199, blocked_env)]
           Absent None).
  - vm_compute. discriminate.
  - repeat constructor; vm_compute; discriminate.
Defined.

(** X8. The latch re-arms.  After a run that saw a price that is not below
    the threshold, whatever the latch was before it, the next run that sees
    a price below the threshold calls the notifier once with that price;
    when the call returns, the alert is delivered and the latch is set
    again. *)
Theorem rearm_after_above (cfg : config) (BS1 BS2 : str -> node) (ev1 ev2 : env)
        (f : file) (l : option (list log_line)) (b : bool) (p1 p2 : float) :
  last_below f = Some b ->
  sighting cfg BS1 ev1 = Ok (Some p1) -> flt p1 (THRESHOLD cfg) = false ->
  sighting cfg BS2 ev2 = Ok (Some p2) -> flt p2 (THRESHOLD cfg) = true ->
  let w1 := snd (run cfg BS1 ev1 f l) in
  let w2 := snd (run cfg BS2 ev2 (state_file w1) (log_file w1)) in
  alert_calls w2 = [p2]
  /\ (alert_outcome cfg ev2 = Ok tt ->
      outbox w2 = [alert_message cfg p2]
      /\ last_below (state_file w2) = Some true).
Proof.
  intros Hlb Hs1 Hlt1 Hs2 Hlt2 w1 w2.
  assert (last_below (state_file w1) = Some false) as Hclear.
  { subst w1. rewrite (latch_after_run cfg BS1 ev1 f l b Hlb), Hs1, Hlt1. reflexivity. }
  subst w2. generalize dependent w1. intros w1 Hclear.
  destruct (notifier_calls cfg BS2 ev2 (state_file w1) (log_file w1)) as (Hcalls & Hbox).
  rewrite Hcalls, Hbox, Hclear, Hs2, Hlt2. split; [reflexivity|].
  intros Hok. rewrite Hok. split; [reflexivity|].
  rewrite (latch_after_run cfg BS2 ev2 _ _ false Hclear), Hs2, Hlt2, Hok. reflexivity.
Qed.

Lemma rearm_after_above_witness :
  let w1 := snd (run sample_cfg parse_250 sample_env
                     (Holds (JDict {[ py "last_below" := JBool true ]})) None) in
  alert_calls (snd (run sample_cfg parse_199 sample_env (state_file w1) (log_file w1)))
  = [f_199].
Proof.
  intros w1.
  apply (rearm_after_above sample_cfg parse_250 parse_199 sample_env sample_env
           (Holds (JDict {[ py "last_below" := JBool true ]})) None true f_250 f_199);
    vm_compute; reflexivity.
Defined.

(** X9. A blocked site.  When none of the four attempts that [main] allows
    gets a good response, the run sleeps 0.8, 1.6 and 2.4 seconds, logs one
    ERROR row whose note is "Fetch failed after retries: " followed by the
    message of the last attempt's error, reports it on standard error,
    calls no notifier, keeps the latch, and returns 0. *)
Theorem blocked_site_is_logged (cfg : config) (BS : str -> node) (ev : env)
        (f : file) (l : option (list log_line)) (b : bool) :
  last_below f = Some b ->
  (forall i, 0 <= i <= 3 -> attempt_body (http ev i) = None) ->
  let w' := snd (run cfg BS ev f l) in
  let msg := py "Fetch failed after retries: " ++ exn_msg (attempt_error (http ev 3)) in
  fst (run cfg BS ev f l) = Ok 0
  /\ last_row w' = Some {| timestamp := now ev; price := None; obs_status := ERROR;
                           note := msg |}
  /\ stderr w' = [py "ERROR: " ++ msg]
  /\ slept w' = [backoff_delay 800 0; backoff_delay 800 1; backoff_delay 800 2]
  /\ wire w' = flat_map (fun k => attempt_requests (URL cfg) (http ev k)) [0; 1; 2; 3]
  /\ alert_calls w' = []
  /\ last_below (state_file w') = Some b.
Proof.
  intros Hlb Hall w' msg.
  pose proof (fetch_exhausted ev (URL cfg) 3 800 (start Absent None) ltac:(lia) Hall) as Hf.
  assert (sighting cfg BS ev = Raise (FetchError (attempt_error (http ev 3)))) as Hs.
  { unfold sighting, fetched. now rewrite Hf. }
  assert (naps cfg ev = [backoff_delay 800 0; backoff_delay 800 1; backoff_delay 800 2])
    as Hnaps by (unfold naps; now rewrite Hf).
  assert (traffic cfg ev
          = flat_map (fun k => attempt_requests (URL cfg) (http ev k)) [0; 1; 2; 3])
    as Htraffic by (unfold traffic; now rewrite Hf).
  subst w'. rewrite (run_error cfg BS ev f l b _ Hlb Hs). cbn [fst snd].
  repeat apply conj; try reflexivity.
  - eapply last_row_logged. reflexivity.
  - cbn. exact Hnaps.
  - cbn. exact Htraffic.
  - exact Hlb.
Qed.

Lemma blocked_site_is_logged_witness :
  fst (run sample_cfg parse_199 blocked_env Absent None) = Ok 0.
Proof.
  apply (blocked_site_is_logged sample_cfg parse_199 blocked_env Absent None false).
  - reflexivity.
  - intros i _. reflexivity.
Defined.

(** ** The notifier *)




(** ** The page fetcher, further *)

(** X11. With a negative [max_retries] the loop has no iteration: no
    request goes out, nothing is slept, and the fetch raises "Fetch failed
    after retries: None". *)
Theorem fetch_without_attempts (ev : env) (url : str) (max_retries backoff_ms : Z)
        (w : world) :
  max_retries < 0 ->
  fetch_html_with_warm ev url max_retries backoff_ms w
  = (Raise (Exn RuntimeError (py "Fetch failed after retries: None")), w).
Proof.
  intros Hneg. unfold fetch_html_with_warm, range.
  replace (Z.to_nat (max_retries + 1)) with 0%nat by lia. reflexivity.
Qed.

Lemma fetch_without_attempts_witness :
  fst (fetch_html_with_warm sample_env (URL sample_cfg) (-1) 800 (start Absent None))
  = Raise (Exn RuntimeError (py "Fetch failed after retries: None")).
Proof.
  rewrite (fetch_without_attempts sample_env (URL sample_cfg) (-1) 800
             (start Absent None)); [reflexivity | lia].
Defined.

Lemma Qsum_app (l1 l2 : list Q) : (Qsum (l1 ++ l2) == Qsum l1 + Qsum l2)%Q.
Proof.
  induction l1 as [|q l1 IH].
  - change (Qsum l2 == 0 + Qsum l2)%Q. ring.
  - change (q + Qsum (l1 ++ l2) == (q + Qsum l1) + Qsum l2)%Q. rewrite IH. ring.
Qed.

(** The sleeps after the first [n] attempts add up to
    [backoff_ms * n * (n + 1) / 2] milliseconds. *)
Lemma nap_total (backoff_ms : Z) (n : nat) :
  (Qsum (map (backoff_delay backoff_ms) (range (Z.of_nat n))) * 2000
   == inject_Z (backoff_ms * Z.of_nat n * (Z.of_nat n + 1)))%Q.
Proof.
  induction n as [|n IH].
  - change (range (Z.of_nat 0)) with (@nil Z). change (Z.of_nat 0) with 0.
    replace (backoff_ms * 0 * (0 + 1)) with 0 by ring. reflexivity.
  - rewrite Nat2Z.inj_succ, <- Z.add_1_r, range_succ by lia.
    rewrite map_app, Qsum_app.
    change (Qsum (map (backoff_delay backoff_ms) [Z.of_nat n]))
      with (backoff_delay backoff_ms (Z.of_nat n) + 0)%Q.
    setoid_replace ((Qsum (map (backoff_delay backoff_ms) (range (Z.of_nat n)))
                     + (backoff_delay backoff_ms (Z.of_nat n) + 0)) * 2000)%Q
      with (Qsum (map (backoff_delay backoff_ms) (range (Z.of_nat n))) * 2000
            + 2 * (backoff_delay backoff_ms (Z.of_nat n) * 1000))%Q
      using relation Qeq by ring.
    rewrite IH, backoff_delay_ms.
    rewrite <- (inject_Z_mult 2), <- inject_Z_plus.
    apply inject_Z_injective. ring.
Qed.

Lemma attempt_requests_shape (url : str) (a : attempt) :
  (length (attempt_requests url a) <= 2)%nat
  /\ Forall (fun q => q = warmup_request \/ q = target_request url) (attempt_requests url a).
Proof.
  unfold attempt_requests. split.
  - destruct a; cbn [length]; lia.
  - constructor; [left; reflexivity|].
    destruct a as [e|e|code text]; [constructor | | ];
      (constructor; [right; reflexivity | constructor]).
Qed.

Lemma fetch_requests_shape (ev : env) (url : str) (ks : list Z) :
  (length (flat_map (fun k => attempt_requests url (http ev k)) ks) <= 2 * length ks)%nat
  /\ Forall (fun q => q = warmup_request \/ q = target_request url)
            (flat_map (fun k => attempt_requests url (http ev k)) ks).
Proof.
  induction ks as [|k ks [IHlen IHall]]; [split; [cbn; lia | constructor]|].
  cbn [flat_map]. destruct (attempt_requests_shape url (http ev k)) as [Hlen Hall].
  split.
  - rewrite length_app. cbn [length]. lia.
  - apply Forall_app. split; assumption.
Qed.

(** X12. The budget of a fetch.  With [max_retries >= 0] and
    [backoff_ms >= 0] a fetch makes at most [max_retries + 1] attempts and
    puts at most two requests per attempt on the wire, each one the warm-up
    request or the target request; it sleeps after [k <= max_retries]
    failed attempts, [backoff_ms * k * (k + 1) / 2] milliseconds in all,
    which is at most [backoff_ms * max_retries * (max_retries + 1) / 2];
    and it touches neither the files nor the mail nor the console. *)
Theorem fetch_budget (ev : env) (url : str) (max_retries backoff_ms : Z)
        (w w' : world) (r : result str) :
  0 <= max_retries -> 0 <= backoff_ms ->
  fetch_html_with_warm ev url max_retries backoff_ms w = (r, w') ->
  exists k reqs,
    0 <= k <= max_retries
    /\ slept w' = slept w ++ map (backoff_delay backoff_ms) (range k)
    /\ (Qsum (map (backoff_delay backoff_ms) (range k)) * 2000
        == inject_Z (backoff_ms * k * (k + 1)))%Q
    /\ (Qsum (map (backoff_delay backoff_ms) (range k)) * 2000
        <= inject_Z (backoff_ms * max_retries * (max_retries + 1)))%Q
    /\ wire w' = wire w ++ reqs
    /\ (length reqs <= 2 * Z.to_nat (max_retries + 1))%nat
    /\ Forall (fun q => q = warmup_request \/ q = target_request url) reqs
    /\ state_file w' = state_file w /\ log_file w' = log_file w
    /\ state_var w' = state_var w /\ alert_calls w' = alert_calls w
    /\ outbox w' = outbox w /\ stdout w' = stdout w /\ stderr w' = stderr w.
Proof.
  intros Hmr Hbo Hrun.
  assert (forall k, 0 <= k <= max_retries ->
            (Qsum (map (backoff_delay backoff_ms) (range k)) * 2000
             == inject_Z (backoff_ms * k * (k + 1)))%Q
            /\ (Qsum (map (backoff_delay backoff_ms) (range k)) * 2000
                <= inject_Z (backoff_ms * max_retries * (max_retries + 1)))%Q) as Hsum.
  { intros k Hk. pose proof (nap_total backoff_ms (Z.to_nat k)) as Ht.
    rewrite Z2Nat.id in Ht by lia. split; [exact Ht|].
    rewrite Ht. rewrite <- Zle_Qle. nia. }
  destruct (first_success ev (Z.to_nat (max_retries + 1)))
    as [Hnone|(i & body & Hi & Hb & Hbefore)].
  - rewrite fetch_exhausted in Hrun; [ | assumption | intros j Hj; apply Hnone; lia].
    injection Hrun as <- <-.
    destruct (fetch_requests_shape ev url (range (max_retries + 1))) as [Hlen Hall].
    rewrite length_range in Hlen.
    destruct (Hsum max_retries ltac:(lia)) as [Heq Hle].
    exists max_retries, (flat_map (fun k => attempt_requests url (http ev k))
                                  (range (max_retries + 1))).
    repeat apply conj; try reflexivity; try assumption; lia.
  - rewrite (fetch_first_success ev url max_retries backoff_ms i body) in Hrun;
      [ | lia | assumption | assumption].
    injection Hrun as <- <-.
    destruct (fetch_requests_shape ev url (range (i + 1))) as [Hlen Hall].
    rewrite length_range in Hlen.
    destruct (Hsum i ltac:(lia)) as [Heq Hle].
    exists i, (flat_map (fun k => attempt_requests url (http ev k)) (range (i + 1))).
    repeat apply conj; try reflexivity; try assumption; lia.
Qed.

Lemma fetch_budget_witness :
  exists k reqs,
    0 <= k <= 3
    /\ slept (snd (fetch_html_with_warm flaky_env (URL sample_cfg) 3 800 (start Absent None)))
       = [] ++ map (backoff_delay 800) (range k)
    /\ wire (snd (fetch_html_with_warm flaky_env (URL sample_cfg) 3 800 (start Absent None)))
       = [] ++ reqs
    /\ (length reqs <= 8)%nat.
Proof.
  pose (X := fetch_html_with_warm flaky_env (URL sample_cfg) 3 800 (start Absent None)).
  destruct (fetch_budget flaky_env (URL sample_cfg) 3 800 (start Absent None) (snd X) (fst X))
    as (k & reqs & Hk & Hslept & _ & _ & Hwire & Hlen & _);
    [lia | lia | vm_compute; reflexivity |].
  exists k, reqs. repeat apply conj; try assumption; lia.
Defined.

(** X13. A failing warm-up request ends its attempt.  When the warm-up
    request raises in every attempt, the target is never requested: the
    wire carries [max_retries + 1] warm-up requests and nothing else, and
    the fetch raises the error that carries the message of the last
    warm-up's exception. *)
Theorem warmup_failure_skips_target (ev : env) (url : str) (max_retries backoff_ms : Z)
        (w : world) :
  0 <= max_retries ->
  (forall i, 0 <= i <= max_retries -> exists e, http ev i = WarmupRaises e) ->
  let r := fst (fetch_html_with_warm ev url max_retries backoff_ms w) in
  let w' := snd (fetch_html_with_warm ev url max_retries backoff_ms w) in
  wire w' = wire w ++ repeat warmup_request (Z.to_nat (max_retries + 1))
  /\ exists e, http ev max_retries = WarmupRaises e /\ r = Raise (FetchError e).
Proof.
  intros Hmr Hall r w'. subst r w'.
  rewrite fetch_exhausted; [ | assumption | ].
  - cbn [fst snd wire with_slept with_wire]. split.
    + f_equal. rewrite <- length_range.
      assert (forall ks, Forall (fun k => 0 <= k <= max_retries) ks ->
                flat_map (fun k => attempt_requests url (http ev k)) ks
                = repeat warmup_request (length ks)) as Hrep.
      { induction ks as [|k ks IH]; intros Hks; [reflexivity|].
        inversion Hks as [|? ? Hk Hks']; subst. cbn [flat_map length repeat].
        destruct (Hall k Hk) as (e & ->). cbn. now rewrite IH. }
      apply Hrep. apply Forall_forall. intros k Hk.
      apply list_elem_of_In, in_range in Hk. lia.
    + destruct (Hall max_retries ltac:(lia)) as (e & He). exists e.
      split; [exact He|]. now rewrite He.
  - intros j Hj. destruct (Hall j Hj) as (e & ->). reflexivity.
Qed.

Lemma warmup_failure_skips_target_witness :
  wire (snd (fetch_html_with_warm
               {| now := []; smtp := None;
                  http := fun _ => WarmupRaises (Exn (LibraryError (py "ConnectTimeout"))
                                                     (py "timed out")) |}
               (URL sample_cfg) 3 800 (start Absent None)))
  = [] ++ repeat warmup_request 4.
Proof.
  apply (warmup_failure_skips_target
           {| now := []; smtp := None;
              http := fun _ => WarmupRaises (Exn (LibraryError (py "ConnectTimeout"))
                                                 (py "timed out")) |}
           (URL sample_cfg) 3 800 (start Absent None)).
  - lia.
  - intros i _. eexists. reflexivity.
Defined.

(** X14. The 1000-character boundary.  For a target response with a status
    in [200, 300): a body of more than 1000 characters is returned; a body
    of exactly 1000 characters is refused as "Unexpected HTTP <status>"; a
    shorter body, the empty one included, is refused as "Bad HTTP <status>
    or tiny body".  In each case both requests of the attempt have gone
    out. *)
Theorem body_length_boundary (ev : env) (url : str) (i code : Z) (text : str) (w : world) :
  http ev i = Response code text ->
  200 <= code < 300 ->
  let r := fst (attempt_once ev url i w) in
  ((1000 < length text)%nat -> r = Ok text)
  /\ (length text = 1000%nat ->
      r = Raise (Exn RuntimeError (py "Unexpected HTTP " ++ str_of_Z code)))
  /\ ((length text < 1000)%nat ->
      r = Raise (Exn RuntimeError (py "Bad HTTP " ++ str_of_Z code ++ py " or tiny body")))
  /\ wire (snd (attempt_once ev url i w)) = wire w ++ [warmup_request; target_request url].
Proof.
  intros Hhttp Hcode r. subst r.
  assert ((200 <=? code) && (code <? 300) = true) as H2xx
    by (apply andb_true_iff; split; [apply Z.leb_le | apply Z.ltb_lt]; lia).
  assert ((code =? 403) || (code =? 429) || (500 <=? code) = false) as Hnot.
  { rewrite !orb_false_iff, !Z.eqb_neq, Z.leb_gt. lia. }
  split; [|split; [|split]].
  - intros Hlen. rewrite (attempt_once_succeeds ev url i text w); [reflexivity|].
    rewrite Hhttp. unfold attempt_body. rewrite H2xx. cbn [andb].
    destruct (1000 <? Z.of_nat (length text)) eqn:E; [reflexivity|].
    apply Z.ltb_ge in E. lia.
  - intros Hlen. rewrite (attempt_once_fails ev url i w).
    + rewrite Hhttp. cbn [fst attempt_error]. rewrite Hnot, Hlen. reflexivity.
    + rewrite Hhttp. unfold attempt_body. rewrite H2xx, Hlen. reflexivity.
  - intros Hlen. rewrite (attempt_once_fails ev url i w).
    + rewrite Hhttp. cbn [fst attempt_error]. rewrite Hnot. cbn [orb].
      destruct (Z.of_nat (length text) <? 1000) eqn:E; [reflexivity|].
      apply Z.ltb_ge in E. lia.
    + rewrite Hhttp. unfold attempt_body. rewrite H2xx. cbn [andb].
      destruct (1000 <? Z.of_nat (length text)) eqn:E; [|reflexivity].
      apply Z.ltb_lt in E. lia.
  - destruct (attempt_body (http ev i)) as [body|] eqn:E.
    + rewrite (attempt_once_succeeds ev url i body w E). now rewrite Hhttp.
    + rewrite (attempt_once_fails ev url i w E). now rewrite Hhttp.
Qed.

Lemma body_length_boundary_witness :
  fst (attempt_once
         {| now := []; smtp := None; http := fun _ => Response 200 (repeat 120%N 1000) |}
         (URL sample_cfg) 0 (start Absent None))
  = Raise (Exn RuntimeError (py "Unexpected HTTP " ++ str_of_Z 200)).
Proof.
  apply (body_length_boundary
           {| now := []; smtp := None; http := fun _ => Response 200 (repeat 120%N 1000) |}
           (URL sample_cfg) 0 200 (repeat 120%N 1000) (start Absent None));
    [reflexivity | lia | vm_compute; reflexivity].
Defined.

(** ** What an ERROR row can say *)

Lemma extract_raises_value_error (soup : node) (e : exn) :
  extract_from_soup soup = Raise e ->
  exists s, e = Exn ValueError (py "could not convert string to float: " ++ repr s).
Proof.
  unfold extract_from_soup.
  destruct (first_row _) as [row|]; [|discriminate].
  destruct (find_class _ _ row) as [td|]; [|discriminate].
  destruct (find _ td) as [bold|]; [|discriminate].
  destruct (get_text [] bold); [discriminate|].
  rewrite parse_price_pln_spec. unfold parse_spec, float_of_str.
  destruct (float_literal _); [discriminate|].
  intros [= <-]. eauto.
Qed.

(** X15. The three ways into the ERROR branch from the first two
    statements of the [try] block, with a parser that can raise.  When the
    fetch or the extraction raises, it is the fetch, with a [RuntimeError]
    whose message is "Fetch failed after retries: " followed by the message
    of the fourth attempt's error; or the HTML parser on the fetched page,
    whose exception is passed on as it is; or, on the parsed page, [float]
    with its [ValueError] on the cleaned price text.  On a parsed page the
    extraction raises nothing else, and a page without the row or without
    a price is not an error. *)
Theorem error_sources (cfg : config) (parser : str -> result node) (ev : env) (e : exn) :
  sighting_io cfg parser ev = Raise e ->
  (fetched cfg ev = Raise e
   /\ e = Exn RuntimeError
              (py "Fetch failed after retries: " ++ exn_msg (attempt_error (http ev 3)))
   /\ forall i, 0 <= i <= 3 -> attempt_body (http ev i) = None)
  \/ (exists html,
        fetched cfg ev = Ok html
        /\ parser html = Raise e)
  \/ (exists html soup s,
        fetched cfg ev = Ok html
        /\ parser html = Ok soup
        /\ extract_from_soup soup = Raise e
        /\ e = Exn ValueError (py "could not convert string to float: " ++ repr s)).
Proof.
  intros Hs. unfold sighting_io, extract_plate_price_io in Hs.
  destruct (fetched cfg ev) as [html|e'] eqn:Hf; cbn [bind_result] in Hs.
  - right. destruct (parser html) as [soup|e'] eqn:Hp; cbn [bind_result] in Hs.
    + right. destruct (extract_raises_value_error soup e Hs) as (s & ->).
      exists html, soup, s. auto.
    + left. injection Hs as ->. exists html. auto.
  - left. injection Hs as ->. unfold fetched in Hf.
    destruct (first_success ev 4) as [Hnone|(i & body & Hi & Hb & Hbefore)].
    + assert (forall j, 0 <= j <= 3 -> attempt_body (http ev j) = None) as Hall
        by (intros j Hj; apply Hnone; lia).
      rewrite (fetch_exhausted ev (URL cfg) 3 800 _ ltac:(lia) Hall) in Hf.
      injection Hf as <-. auto.
    + rewrite (fetch_first_success ev (URL cfg) 3 800 i body) in Hf;
        [discriminate | lia | assumption | assumption].
Qed.

Lemma error_sources_witness :
  fetched sample_cfg blocked_env
  = Raise (Exn RuntimeError
               (py "Fetch failed after retries: "
                ++ exn_msg (attempt_error (http blocked_env 3)))).
Proof.
  destruct (error_sources sample_cfg (fun html => Ok (parse_199 html)) blocked_env
              (Exn RuntimeError (py "Fetch failed after retries: Bad HTTP 403 or tiny body")))
    as [(Hf & _ & _)|[(html & Hf & _)|(html & soup & s & Hf & _)]].
  - vm_compute. reflexivity.
  - exact Hf.
  - vm_compute in Hf. discriminate Hf.
  - vm_compute in Hf. discriminate Hf.
Defined.

(** ** The price text parser, further *)

Lemma drop_chars_idempotent (bad : list N) (s : str) :
  drop_chars bad (drop_chars bad s) = drop_chars bad s.
Proof.
  unfold drop_chars. induction s as [|c s IH]; [reflexivity|].
  cbn [List.filter]. destruct (negb (existsb (N.eqb c) bad)) eqn:E.
  - cbn [List.filter]. rewrite E. now f_equal.
  - exact IH.
Qed.

Lemma clean_spec_separators (s : str) :
  clean_spec s = map (swap_char 44 46) (drop_chars [160%N; 32%N; 46%N] s).
Proof.
  unfold clean_spec. f_equal. unfold drop_chars.
  induction s as [|c s IH]; [reflexivity|].
  cbn [map List.filter].
  destruct (c =? 160)%N eqn:E.
  - apply N.eqb_eq in E. subst c. cbn. exact IH.
  - assert (swap_char 160 32 c = c) as -> by (unfold swap_char; now rewrite E).
    cbn [existsb]. rewrite E. cbn [orb]. destruct (negb _); [f_equal|]; exact IH.
Qed.

(** X16. Separators do not count, and a dot is always a separator.  The
    parser gives [float] of the input without its spaces, non-breaking
    spaces and dots, with each comma turned into a decimal point; so it
    gives the same answer for two strings that differ only in such
    separators, and for a string and the string without them.  A dot in the
    input is never read as a decimal point: "12.50" is 1250.0. *)
Theorem parser_ignores_separators (s : str) :
  parse_price_pln s
  = float_of_str (map (swap_char 44 46) (drop_chars [160%N; 32%N; 46%N] s))
  /\ parse_price_pln (drop_chars [160%N; 32%N; 46%N] s) = parse_price_pln s
  /\ (forall t, drop_chars [160%N; 32%N; 46%N] s = drop_chars [160%N; 32%N; 46%N] t ->
                parse_price_pln s = parse_price_pln t)
  /\ ~ In 46%N (drop_chars [160%N; 32%N; 46%N] s)
  /\ parse_price_pln (py "12.50") = parse_price_pln (py "1250")
  /\ (exists f, parse_price_pln (py "1250") = Ok f /\ float_is 1250 f = true).
Proof.
  assert (forall u, parse_price_pln u
                    = float_of_str (map (swap_char 44 46)
                                        (drop_chars [160%N; 32%N; 46%N] u))) as Hparse.
  { intros u. rewrite parse_price_pln_spec. unfold parse_spec.
    now rewrite clean_spec_separators. }
  split; [apply Hparse|]. split; [|split; [|split; [|split]]].
  - rewrite !Hparse. now rewrite drop_chars_idempotent.
  - intros t Ht. rewrite !Hparse. now rewrite Ht.
  - unfold drop_chars. intros Hin. apply filter_In in Hin as [_ Hin].
    cbn in Hin. discriminate.
  - vm_compute. reflexivity.
  - eexists. split; vm_compute; reflexivity.
Qed.

(** ** The extractor, further *)

(** X17. What the row test needs.  A node passes the test of the loop only
    if it is a tag that has a [data-area] attribute and a [class] attribute
    with at least one class; text, comments, and tags without one of the
    two attributes never stop the loop, and a document in which no [tr] has
    both gives [None]. *)
Theorem row_needs_both_attributes (tr : node) :
  (row_matches tr = true ->
   exists name attrs classes contents,
     tr = Tag name attrs (Some classes) contents
     /\ is_Some (attrs !! py "data-area")
     /\ classes <> [])
  /\ (forall name attrs contents, row_matches (Tag name attrs None contents) = false)
  /\ (forall name attrs class_ contents,
        attrs !! py "data-area" = None ->
        row_matches (Tag name attrs class_ contents) = false)
  /\ (forall soup,
        Forall (fun r => match r with
                         | Tag _ attrs (Some (_ :: _)) _ => attrs !! py "data-area" = None
                         | _ => True
                         end)
               (find_all (py "tr") soup) ->
        extract_from_soup soup = Ok None).
Proof.
  assert (forall name attrs contents, row_matches (Tag name attrs None contents) = false)
    as Hnone.
  { intros name attrs contents. cbn [row_matches].
    destruct (attrs !! py "data-area"); [|reflexivity].
    cbn [default join]. change (lower []) with (@nil N).
    rewrite andb_false_iff. right. vm_compute. reflexivity. }
  assert (forall name attrs contents, row_matches (Tag name attrs (Some []) contents) = false)
    as Hempty.
  { intros name attrs contents. cbn [row_matches].
    destruct (attrs !! py "data-area"); [|reflexivity].
    cbn [default join]. change (lower []) with (@nil N).
    rewrite andb_false_iff. right. vm_compute. reflexivity. }
  assert (forall name attrs class_ contents,
            attrs !! py "data-area" = None ->
            row_matches (Tag name attrs class_ contents) = false) as Harea
    by (intros name attrs class_ contents H; cbn [row_matches]; now rewrite H).
  split; [|split; [exact Hnone | split; [exact Harea|]]].
  - destruct tr as [s|s|name attrs [[|c classes]|] contents]; try discriminate.
    + now rewrite Hempty.
    + intros H. exists name, attrs, (c :: classes), contents.
      split; [reflexivity|]. split; [|discriminate].
      cbn [row_matches] in H. destruct (attrs !! py "data-area"); [eauto | discriminate].
    + now rewrite Hnone.
  - intros soup Hall. unfold extract_from_soup.
    assert (first_row (find_all (py "tr") soup) = None) as ->; [|reflexivity].
    apply first_row_none. eapply Forall_impl; [exact Hall|].
    intros [s|s|name attrs [[|c classes]|] contents] H; try reflexivity.
    + apply Hempty.
    + now apply Harea.
    + apply Hnone.
Qed.

(** ** Prices that are not numbers *)

Lemma flt_nan (x : float) : flt S754_nan x = false /\ flt x S754_nan = false.
Proof. split; [reflexivity | destruct x; reflexivity]. Qed.

(** X18. Not-a-number is never below.  [float] accepts "nan", so a price
    cell that reads "NaN zł" is extracted as a price, not reported as an
    error; and since no comparison with a NaN holds, a run whose price or
    whose threshold is NaN logs ABOVE, calls no notifier and clears the
    latch. *)
Theorem nan_is_above (cfg : config) (BS : str -> node) (ev : env)
        (f : file) (l : option (list log_line)) (b : bool) (p : float) :
  last_below f = Some b ->
  sighting cfg BS ev = Ok (Some p) ->
  p = S754_nan \/ THRESHOLD cfg = S754_nan ->
  let w' := snd (run cfg BS ev f l) in
  (obs_status <$> last_row w') = Some ABOVE
  /\ alert_calls w' = []
  /\ last_below (state_file w') = Some false
  /\ extract_from_soup (sample_page [price_cell (py "NaN zł")]) = Ok (Some S754_nan).
Proof.
  intros Hlb Hs Hnan w'.
  assert (flt p (THRESHOLD cfg) = false) as Hlt
    by (destruct Hnan as [-> | ->]; apply flt_nan).
  subst w'. rewrite (run_above cfg BS ev f l b p Hlb Hs Hlt). cbn [snd].
  erewrite last_row_logged by reflexivity.
  split; [reflexivity|]. split; [reflexivity|].
  split; [exact (last_below_set f b false Hlb)|].
  vm_compute. reflexivity.
Qed.

Lemma nan_is_above_witness :
  last_below
    (state_file (snd (run sample_cfg parse_nan sample_env
                          (Holds (JDict {[ py "last_below" := JBool true ]})) None)))
  = Some false.
Proof.
  apply (nan_is_above sample_cfg parse_nan sample_env
           (Holds (JDict {[ py "last_below" := JBool true ]})) None true S754_nan).
  - reflexivity.
  - vm_compute. reflexivity.
  - left. reflexivity.
Defined.
